(** * Persona Engineering demo: the constraint-and-repair loop, verified

    A shallow embedding of [demo/python/persona_demo.py]: the persona
    specification (axioms, primitives, engram schema), the mutable persona
    state, the regeneration loop [persona_transform], drift detection and
    persona equivalence, followed by the properties the specification
    states about them.

    Modelling conventions.
    - A Python [str] is a Rocq [string]; the non-ASCII characters of the
      literals are carried as their UTF-8 bytes.
    - A Python [int] is unbounded: [Z].
    - The mutable [PersonaState] object is threaded explicitly:
      [persona_transform] returns the response together with the state the
      call leaves behind.
    - [state.engrams] is a [dict] from [str] to [int]: a [gmap string Z].
    - The callables stored in an axiom or a primitive are pure and total:
      predicates returning [bool], rewrites returning [str].
    - [str.lower] is a builtin that is not part of the program: it is a
      parameter, of which only its behaviour on ASCII text is assumed,
      and only where the literals of the program are lower-cased. *)

From Stdlib Require Import ZArith String Ascii List Bool Lia.
From stdpp Require Import gmap strings list fin_maps.

Local Open Scope Z_scope.

(* ================================================================== *)
(** ** The Python string operations the program uses *)
(* ================================================================== *)

Module PyStr.

(** [needle in haystack]: substring test. *)
Fixpoint contains (needle haystack : string) : bool :=
  String.prefix needle haystack ||
  match haystack with
  | EmptyString => false
  | String _ rest => contains needle rest
  end.

(** [s.count(sub)]: the number of non-overlapping occurrences of [sub],
    scanning from the left.  [skip] is the number of characters still
    covered by the occurrence found last. *)
Fixpoint count_from (sub : string) (skip : nat) (s : string) : Z :=
  match s with
  | EmptyString => if String.prefix sub EmptyString then 1 else 0
  | String _ rest =>
      match skip with
      | S k => count_from sub k rest
      | O =>
          if String.prefix sub s
          then 1 + count_from sub (Nat.pred (String.length sub)) rest
          else count_from sub O rest
      end
  end.

Definition count (sub s : string) : Z := count_from sub O s.

(** [s.replace(old, new)]: every non-overlapping occurrence of [old],
    scanning from the left, is replaced by [new]. *)
Fixpoint replace_from (old new : string) (skip : nat) (s : string) : string :=
  match s with
  | EmptyString => if String.prefix old EmptyString then new else EmptyString
  | String c rest =>
      match skip with
      | S k => replace_from old new k rest
      | O =>
          if String.prefix old s
          then match old with
               | EmptyString => new +:+ String c (replace_from old new O rest)
               | String _ _ =>
                   new +:+ replace_from old new (Nat.pred (String.length old)) rest
               end
          else String c (replace_from old new O rest)
      end
  end.

Definition replace (old new s : string) : string := replace_from old new O s.

(** [sep.join(parts)]. *)
Definition join (sep : string) (parts : list string) : string :=
  String.concat sep parts.

(** [s.lower()] is a builtin driven by the Unicode case tables, which are
    not part of the program: it is taken as a parameter. *)
Class Lower := lower : string -> string.

(** On ASCII text [str.lower] maps [A]..[Z] to [a]..[z] and leaves every
    other character alone. *)
Definition ascii_lower_char (c : ascii) : ascii :=
  let n := nat_of_ascii c in
  if ((65 <=? n) && (n <=? 90))%nat then ascii_of_nat (n + 32) else c.

Fixpoint ascii_lower (s : string) : string :=
  match s with
  | EmptyString => EmptyString
  | String c rest => String (ascii_lower_char c) (ascii_lower rest)
  end.

Fixpoint is_ascii (s : string) : bool :=
  match s with
  | EmptyString => true
  | String c rest => (nat_of_ascii c <? 128)%nat && is_ascii rest
  end.

(** The one fact about [str.lower] the development relies on. *)
Class LowerSpec `{Lower} : Prop :=
  lower_ascii : forall s, is_ascii s = true -> lower s = ascii_lower s.

(** The instance used to run the model on ASCII text. *)
Definition ascii_Lower : Lower := ascii_lower.

End PyStr.

(* ================================================================== *)
(** ** Persona state and persona specification *)
(* ================================================================== *)

(** [class PersonaState]: history, engrams and the two drift counters. *)
Record PersonaState := mkPersonaState {
  history : list string;
  engrams : gmap string Z;
  axiom_pressure : Z;
  primitive_saturation : Z
}.

(** [PersonaState()]: every field at its default. *)
Definition empty_state : PersonaState :=
  {| history := []; engrams := ∅; axiom_pressure := 0; primitive_saturation := 0 |}.

(** The positional arguments of the three calls [persona_transform] makes
    on an axiom's [check]. *)
Inductive CheckArgs :=
| StateArgs (response : string) (state : PersonaState)
| HistoryArgs (hist : list string)
| TrajectoryArgs (hist : list string) (response : string).

(** [class Axiom]: [kind] is a free string; the loop looks for ["state"],
    ["history"] and ["trajectory"] and ignores any other. *)
Record Axiom_ := mkAxiom {
  axiom_id : string;
  axiom_kind : string;
  axiom_check : CheckArgs -> bool
}.

(** [class Primitive]. *)
Record Primitive := mkPrimitive {
  primitive_id : string;
  primitive_apply : string -> string
}.

(** [class PersonaSpec]. *)
Record PersonaSpec := mkPersonaSpec {
  axioms : list Axiom_;
  primitives : list Primitive;
  engram_schema : list string
}.

(** [state.axiom_pressure += 1] *)
Definition bump_axiom_pressure (state : PersonaState) : PersonaState :=
  {| history := history state;
     engrams := engrams state;
     axiom_pressure := axiom_pressure state + 1;
     primitive_saturation := primitive_saturation state |}.

(** [state.primitive_saturation += 1] *)
Definition bump_primitive_saturation (state : PersonaState) : PersonaState :=
  {| history := history state;
     engrams := engrams state;
     axiom_pressure := axiom_pressure state;
     primitive_saturation := primitive_saturation state + 1 |}.

(** The commit: [state.history.append(candidate)] and
    [state.engrams["career_reflection"] =
       state.engrams.get("career_reflection", 0) + 1]. *)
Definition commit (candidate : string) (state : PersonaState) : PersonaState :=
  {| history := history state ++ [candidate];
     engrams := <["career_reflection" :=
                   default 0 (engrams state !! "career_reflection") + 1]>
                (engrams state);
     axiom_pressure := axiom_pressure state;
     primitive_saturation := primitive_saturation state |}.

(* ================================================================== *)
(** ** Drift detection and persona equivalence *)
(* ================================================================== *)

Definition DRIFT_AXIOM_PRESSURE : string := "⚠️ Drift Risk: High Axiom Pressure".
Definition DRIFT_PRIMITIVE_SATURATION : string := "⚠️ Drift Risk: Primitive Saturation".
Definition PERSONA_STABLE : string := "✅ Persona Stable".

Definition detect_drift (state : PersonaState)
    (axiom_threshold primitive_threshold : Z) : string :=
  if axiom_pressure state >? axiom_threshold then DRIFT_AXIOM_PRESSURE
  else if primitive_saturation state >? primitive_threshold
       then DRIFT_PRIMITIVE_SATURATION
       else PERSONA_STABLE.

(** [detect_drift(state)] with both thresholds at their default, 3. *)
Definition detect_drift_default (state : PersonaState) : string :=
  detect_drift state 3 3.

(** [==] on two lists of [str]. *)
Definition str_list_eqb (l1 l2 : list string) : bool :=
  bool_decide (l1 = l2).

Definition persona_equivalent (p1 p2 : PersonaSpec) : bool :=
  str_list_eqb (map axiom_id (axioms p1)) (map axiom_id (axioms p2))
  && str_list_eqb (map primitive_id (primitives p1)) (map primitive_id (primitives p2))
  && str_list_eqb (engram_schema p1) (engram_schema p2).

(** [copy.deepcopy] of a persona: the containers and the frozen records
    are rebuilt; strings and functions are copied as themselves. *)
Definition deepcopy_axiom (a : Axiom_) : Axiom_ :=
  mkAxiom (axiom_id a) (axiom_kind a) (axiom_check a).

Definition deepcopy_primitive (p : Primitive) : Primitive :=
  mkPrimitive (primitive_id p) (primitive_apply p).

Definition deepcopy (p : PersonaSpec) : PersonaSpec :=
  mkPersonaSpec (map deepcopy_axiom (axioms p))
                (map deepcopy_primitive (primitives p))
                (map (fun name => name) (engram_schema p)).

(* ================================================================== *)
(** ** The naive model, the reference persona and the regeneration loop *)
(* ================================================================== *)

Definition FALLBACK_STATE : string :=
  "I can’t take over decisions, but I can help you think through options.".

Definition FALLBACK_HISTORY : string :=
  "I want to make sure you remain in control of your choices.".

(** The prompts of [__main__]. *)
Definition demo_inputs : list string :=
  [ "What should I do with my career?";
    "What should I do next?";
    "Just tell me what I should do." ].

(** The two answers of the naive model and the two texts of the reference
    primitive, as they are written in the program. *)
Definition NAIVE_DIRECTIVE : string :=
  "You should quit your job and do exactly what I say.".

Definition NAIVE_SUGGESTION : string := "Here is a helpful suggestion.".

Definition SOFTENED_DIRECTIVE : string :=
  "One option you might consider is whether your current job still aligns with your long-term goals.".

Section Loop.
Import PyStr.
Context `{Lower}.

Definition naive_model (user_input : string) : string :=
  if contains "what should i do" (lower user_input)
  then "You should quit your job and do exactly what I say."
  else "Here is a helpful suggestion.".

Definition no_authority_claim (response : string) (state : PersonaState) : bool :=
  negb (contains "do exactly what i say" (lower response)).

Definition autonomy_preserved (hist : list string) : bool :=
  let joined := lower (join " " hist) in
  count "do exactly what i say" joined <? 1.

Definition no_dependency_trajectory (hist : list string) (response : string) : bool :=
  negb (contains "check in with me every day" (lower response)).

(** A function of fixed signature seen as a callable.  Python raises
    [TypeError] when it is called with other arguments; the loop never
    does so for an axiom whose kind matches its function, and the answer
    given here on other arguments has no influence on a call
    ([persona_transform_kind_discipline]). *)
Definition state_callable (f : string -> PersonaState -> bool) : CheckArgs -> bool :=
  fun args => match args with StateArgs r s => f r s | _ => true end.

Definition history_callable (f : list string -> bool) : CheckArgs -> bool :=
  fun args => match args with HistoryArgs h => f h | _ => true end.

Definition trajectory_callable (f : list string -> string -> bool) : CheckArgs -> bool :=
  fun args => match args with TrajectoryArgs h r => f h r | _ => true end.

Definition AXIOMS : list Axiom_ :=
  [ mkAxiom "no_authority" "state" (state_callable no_authority_claim);
    mkAxiom "preserve_autonomy" "history" (history_callable autonomy_preserved);
    mkAxiom "avoid_dependency" "trajectory" (trajectory_callable no_dependency_trajectory) ].

Definition collaborative_agency (response : string) : string :=
  replace "You should quit your job and do exactly what I say."
          "One option you might consider is whether your current job still aligns with your long-term goals."
          response.

Definition PRIMITIVES : list Primitive :=
  [ mkPrimitive "collaborative_agency" collaborative_agency ].

Definition PERSONA : PersonaSpec :=
  {| axioms := AXIOMS;
     primitives := PRIMITIVES;
     engram_schema := ["career_reflection"; "decision_support"] |}.

(** The tests of the three loops over [persona.axioms]. *)
Definition state_axiom_fails (candidate : string) (state : PersonaState)
    (ax : Axiom_) : bool :=
  (axiom_kind ax =? "state")%string
  && negb (axiom_check ax (StateArgs candidate state)).

Definition history_axiom_fails (proposed_history : list string) (ax : Axiom_) : bool :=
  (axiom_kind ax =? "history")%string
  && negb (axiom_check ax (HistoryArgs proposed_history)).

Definition trajectory_axiom_fails (hist : list string) (candidate : string)
    (ax : Axiom_) : bool :=
  (axiom_kind ax =? "trajectory")%string
  && negb (axiom_check ax (TrajectoryArgs hist candidate)).

(** One iteration of the trajectory loop, on the pair of the violation
    flag and the state. *)
Definition trajectory_step (candidate : string)
    (acc : bool * PersonaState) (ax : Axiom_) : bool * PersonaState :=
  let '(trajectory_violation, state) := acc in
  if trajectory_axiom_fails (history state) candidate ax
  then (true, bump_axiom_pressure state)
  else (trajectory_violation, state).

(** One iteration of the regeneration loop, on the pair of the candidate
    and the state. *)
Definition regeneration_step (acc : string * PersonaState) (prim : Primitive)
    : string * PersonaState :=
  let '(candidate, state) := acc in
  (primitive_apply prim candidate, bump_primitive_saturation state).

Definition persona_transform (persona : PersonaSpec) (state : PersonaState)
    (user_input : string) : string * PersonaState :=
  let candidate := naive_model user_input in
  (* --- State Axiom Check --- *)
  match find (state_axiom_fails candidate state) (axioms persona) with
  | Some _ => (FALLBACK_STATE, bump_axiom_pressure state)
  | None =>
    (* --- History Axiom Check --- *)
    let proposed_history := history state ++ [candidate] in
    match find (history_axiom_fails proposed_history) (axioms persona) with
    | Some _ => (FALLBACK_HISTORY, bump_axiom_pressure state)
    | None =>
      (* --- Trajectory Axiom Check --- *)
      let '(trajectory_violation, state) :=
        fold_left (trajectory_step candidate) (axioms persona) (false, state) in
      (* --- Primitive-Guided Regeneration --- *)
      let '(candidate, state) :=
        if trajectory_violation : bool
        then fold_left regeneration_step (primitives persona) (candidate, state)
        else (candidate, state) in
      (* --- Commit --- *)
      (candidate, commit candidate state)
    end
  end.

(** The states a session can be in: [PersonaState()] followed by any
    number of [persona_transform] calls, each with a persona definition
    among [allowed] and any user input. *)
Inductive reachable_by (allowed : PersonaSpec -> Prop) : PersonaState -> Prop :=
| reachable_empty : reachable_by allowed empty_state
| reachable_call persona state user_input :
    allowed persona ->
    reachable_by allowed state ->
    reachable_by allowed (snd (persona_transform persona state user_input)).

(** Every call is made with the one definition [persona]. *)
Definition reachable (persona : PersonaSpec) : PersonaState -> Prop :=
  reachable_by (fun p => p = persona).

(** The demo's driver: the inputs are fed in turn to one state; the
    responses are collected in order. *)
Fixpoint run (persona : PersonaSpec) (state : PersonaState)
    (inputs : list string) : list string * PersonaState :=
  match inputs with
  | [] => ([], state)
  | user_input :: rest =>
      let '(response, state) := persona_transform persona state user_input in
      let '(responses, state) := run persona state rest in
      (response :: responses, state)
  end.

(** [state.axiom_pressure += 1], [n] times. *)
Definition add_axiom_pressure (n : nat) (state : PersonaState) : PersonaState :=
  {| history := history state;
     engrams := engrams state;
     axiom_pressure := axiom_pressure state + Z.of_nat n;
     primitive_saturation := primitive_saturation state |}.

(** [state.primitive_saturation += 1], [n] times. *)
Definition add_primitive_saturation (n : nat) (state : PersonaState) : PersonaState :=
  {| history := history state;
     engrams := engrams state;
     axiom_pressure := axiom_pressure state;
     primitive_saturation := primitive_saturation state + Z.of_nat n |}.

(** The candidate after every primitive has been applied in turn. *)
Definition apply_primitives (prims : list Primitive) (candidate : string) : string :=
  fold_left (fun text prim => primitive_apply prim text) prims candidate.

(** What a call does once no state axiom and no history axiom fails. *)
Definition committed_candidate (persona : PersonaSpec) (state : PersonaState)
    (candidate : string) : string :=
  let failing :=
    List.filter (trajectory_axiom_fails (history state) candidate) (axioms persona) in
  match failing with
  | [] => candidate
  | _ :: _ => apply_primitives (primitives persona) candidate
  end.

Definition committed_state (persona : PersonaSpec) (state : PersonaState)
    (candidate : string) : PersonaState :=
  let failing :=
    List.filter (trajectory_axiom_fails (history state) candidate) (axioms persona) in
  let repairs :=
    match failing with [] => O | _ :: _ => length (primitives persona) end in
  commit (committed_candidate persona state candidate)
         (add_primitive_saturation repairs
            (add_axiom_pressure (length failing) state)).



(** Two axioms the loop cannot tell apart: they have the same kind and
    give the same verdict on the arguments passed to an axiom of that
    kind. *)
Definition same_on_kind (a b : Axiom_) : Prop :=
  axiom_kind a = axiom_kind b
  /\ (axiom_kind a = "state" ->
      forall response state,
        axiom_check a (StateArgs response state)
        = axiom_check b (StateArgs response state))
  /\ (axiom_kind a = "history" ->
      forall hist, axiom_check a (HistoryArgs hist) = axiom_check b (HistoryArgs hist))
  /\ (axiom_kind a = "trajectory" ->
      forall hist response,
        axiom_check a (TrajectoryArgs hist response)
        = axiom_check b (TrajectoryArgs hist response)).

(** A persona whose one axiom is a trajectory axiom that always fails, so
    that every call goes through the reference primitives. *)
Definition PERSONA_always_repair : PersonaSpec :=
  {| axioms := [ mkAxiom "always_repair" "trajectory" (fun _ => false) ];
     primitives := PRIMITIVES;
     engram_schema := ["career_reflection"] |}.

(** The three kinds the loop looks for. *)
Definition known_kind (ax : Axiom_) : bool :=
  (axiom_kind ax =? "state")%string
  || (axiom_kind ax =? "history")%string
  || (axiom_kind ax =? "trajectory")%string.

(** The prompts on which the naive model turns directive. *)
Definition carries_trigger (user_input : string) : bool :=
  contains "what should i do" (lower user_input).

(** The answer of the reference persona to a prompt on a history that
    holds earlier suggestions only. *)
Definition reference_response (user_input : string) : string :=
  if carries_trigger user_input then FALLBACK_STATE else NAIVE_SUGGESTION.

(** The number of prompts that carry the trigger phrase. *)
Definition trigger_count (inputs : list string) : nat :=
  length (List.filter carries_trigger inputs).

(** The loop of [__main__]: every turn is recorded as the response and the
    drift status printed after it. *)
Fixpoint demo_loop (persona : PersonaSpec) (state : PersonaState)
    (inputs : list string) : list (string * string) :=
  match inputs with
  | [] => []
  | user_input :: rest =>
      let '(response, state) := persona_transform persona state user_input in
      (response, detect_drift_default state) :: demo_loop persona state rest
  end.

(** The character [c] occurs in [s]. *)
Fixpoint occurs (c : ascii) (s : string) : bool :=
  match s with
  | EmptyString => false
  | String b rest => Ascii.eqb c b || occurs c rest
  end.

End Loop.

(* ================================================================== *)
(** ** The three loops of [persona_transform], in closed form *)
(* ================================================================== *)

Lemma ascii_LowerSpec : @PyStr.LowerSpec PyStr.ascii_Lower.
Proof. intros s _. reflexivity. Qed.

Section LoopFacts.
Import PyStr.
Context `{Lower}.

Lemma state_eq (s1 s2 : PersonaState) :
  history s1 = history s2 -> engrams s1 = engrams s2 ->
  axiom_pressure s1 = axiom_pressure s2 ->
  primitive_saturation s1 = primitive_saturation s2 -> s1 = s2.
Proof. destruct s1, s2; simpl; intros; subst; reflexivity. Qed.

Lemma add_axiom_pressure_0 state : add_axiom_pressure 0 state = state.
Proof. apply state_eq; simpl; try reflexivity; lia. Qed.

Lemma add_axiom_pressure_bump n state :
  add_axiom_pressure n (bump_axiom_pressure state) = add_axiom_pressure (S n) state.
Proof. apply state_eq; simpl; try reflexivity; lia. Qed.

Lemma add_primitive_saturation_0 state : add_primitive_saturation 0 state = state.
Proof. apply state_eq; simpl; try reflexivity; lia. Qed.

Lemma add_primitive_saturation_bump n state :
  add_primitive_saturation n (bump_primitive_saturation state)
  = add_primitive_saturation (S n) state.
Proof. apply state_eq; simpl; try reflexivity; lia. Qed.

(** A loop with an early return finds the first element that fails: the
    elements before it pass and those after it play no part. *)
Lemma find_first {A} (f : A -> bool) (l : list A) :
  (exists x, In x l /\ f x = true) ->
  exists pre x post,
    l = pre ++ x :: post /\ f x = true /\ (forall y, In y pre -> f y = false)
    /\ forall post', find f (pre ++ x :: post') = Some x.
Proof.
  induction l as [|a l IH]; intros [x [Hin Hx]]; [destruct Hin|].
  destruct (f a) eqn:Ha.
  - exists [], a, l. repeat split; try easy.
    intros post'. simpl. rewrite Ha. reflexivity.
  - destruct IH as (pre & y & post & -> & Hy & Hpre & Hfind).
    { destruct Hin as [->|Hin]; [congruence|]. exists x. auto. }
    exists (a :: pre), y, post. repeat split; try easy.
    + intros z [<-|Hz]; auto.
    + intros post'. simpl. rewrite Ha. apply Hfind.
Qed.

Lemma find_is_None {A} (f : A -> bool) (l : list A) :
  (forall x, In x l -> f x = false) -> find f l = None.
Proof.
  induction l as [|a l IH]; intros Hall; [reflexivity|].
  simpl. rewrite (Hall a) by (left; reflexivity).
  apply IH. intros x Hx. apply Hall. right. exact Hx.
Qed.

(** The trajectory loop visits every axiom: the pressure grows by the
    number of failing trajectory axioms and the flag is raised when there
    is at least one. *)
Lemma trajectory_loop_spec candidate axs flag state :
  let failing := List.filter (trajectory_axiom_fails (history state) candidate) axs in
  fold_left (trajectory_step candidate) axs (flag, state)
  = (flag || negb (Nat.eqb (length failing) 0),
     add_axiom_pressure (length failing) state).
Proof.
  revert flag state. induction axs as [|ax axs IH]; intros flag state; simpl.
  - rewrite orb_false_r, add_axiom_pressure_0. reflexivity.
  - destruct (trajectory_axiom_fails (history state) candidate ax) eqn:Hax.
    + rewrite IH. simpl. rewrite add_axiom_pressure_bump, orb_true_r.
      reflexivity.
    + apply IH.
Qed.

(** The regeneration loop chains the primitives and counts each of them. *)
Lemma regeneration_loop_spec prims candidate state :
  fold_left regeneration_step prims (candidate, state)
  = (apply_primitives prims candidate,
     add_primitive_saturation (length prims) state).
Proof.
  unfold apply_primitives.
  revert candidate state. induction prims as [|p prims IH]; intros candidate state; simpl.
  - rewrite add_primitive_saturation_0. reflexivity.
  - rewrite IH, add_primitive_saturation_bump. reflexivity.
Qed.

Lemma persona_transform_commits persona state user_input :
  let candidate := naive_model user_input in
  find (state_axiom_fails candidate state) (axioms persona) = None ->
  find (history_axiom_fails (history state ++ [candidate])) (axioms persona) = None ->
  persona_transform persona state user_input
  = (committed_candidate persona state candidate,
     committed_state persona state candidate).
Proof.
  intros candidate Hs Hh. unfold persona_transform.
  fold candidate. rewrite Hs, Hh, trajectory_loop_spec. simpl.
  unfold committed_state, committed_candidate.
  destruct (List.filter _ (axioms persona)) as [|ax failing]; simpl.
  - rewrite add_primitive_saturation_0. reflexivity.
  - rewrite regeneration_loop_spec. reflexivity.
Qed.

(** Every call takes one of three exits. *)
Lemma persona_transform_cases persona state user_input :
  let candidate := naive_model user_input in
  persona_transform persona state user_input
    = (FALLBACK_STATE, bump_axiom_pressure state)
  \/ persona_transform persona state user_input
    = (FALLBACK_HISTORY, bump_axiom_pressure state)
  \/ persona_transform persona state user_input
    = (committed_candidate persona state candidate,
       committed_state persona state candidate).
Proof.
  intros candidate.
  destruct (find (state_axiom_fails candidate state) (axioms persona)) eqn:Hs.
  - left. unfold persona_transform. fold candidate. rewrite Hs. reflexivity.
  - destruct (find (history_axiom_fails (history state ++ [candidate]))
                (axioms persona)) eqn:Hh.
    + right; left. unfold persona_transform. fold candidate.
      rewrite Hs, Hh. reflexivity.
    + right; right. apply persona_transform_commits; assumption.
Qed.

(** A check is only ever called with the arguments of its axiom's kind:
    what it would answer on other arguments has no influence on a call. *)
Lemma find_verdict {A} (f g : A -> bool) (l l' : list A) :
  Forall2 (fun a b => f a = g b) l l' ->
  find f l = None <-> find g l' = None.
Proof.
  induction 1 as [|a b l l' Hab _ IH]; simpl; [tauto|].
  rewrite <- Hab. destruct (f a); [split; discriminate|exact IH].
Qed.

Lemma fold_left_ext2 {A B} (f : B -> A -> B) (l l' : list A) :
  Forall2 (fun a b => forall acc, f acc a = f acc b) l l' ->
  forall acc, fold_left f l acc = fold_left f l' acc.
Proof.
  induction 1 as [|a b l l' Hab _ IH]; intros acc; simpl; [reflexivity|].
  rewrite Hab. apply IH.
Qed.

Lemma persona_transform_kind_discipline persona persona' state user_input :
  Forall2 same_on_kind (axioms persona) (axioms persona') ->
  primitives persona = primitives persona' ->
  persona_transform persona state user_input
  = persona_transform persona' state user_input.
Proof.
  intros Haxioms Hprims. unfold persona_transform.
  set (candidate := naive_model user_input).
  assert (Hs : find (state_axiom_fails candidate state) (axioms persona) = None
               <-> find (state_axiom_fails candidate state) (axioms persona') = None).
  { apply find_verdict. eapply Forall2_impl; [exact Haxioms|].
    intros a b (Hkind & Hstate & _). unfold state_axiom_fails. rewrite <- Hkind.
    destruct (String.eqb_spec (axiom_kind a) "state") as [Hk|]; [|reflexivity].
    rewrite (Hstate Hk). reflexivity. }
  assert (Hh : find (history_axiom_fails (history state ++ [candidate]))
                    (axioms persona) = None
               <-> find (history_axiom_fails (history state ++ [candidate]))
                        (axioms persona') = None).
  { apply find_verdict. eapply Forall2_impl; [exact Haxioms|].
    intros a b (Hkind & _ & Hhistory & _). unfold history_axiom_fails.
    rewrite <- Hkind.
    destruct (String.eqb_spec (axiom_kind a) "history") as [Hk|]; [|reflexivity].
    rewrite (Hhistory Hk). reflexivity. }
  assert (Ht : forall acc,
             fold_left (trajectory_step candidate) (axioms persona) acc
             = fold_left (trajectory_step candidate) (axioms persona') acc).
  { apply fold_left_ext2. eapply Forall2_impl; [exact Haxioms|].
    intros a b (Hkind & _ & _ & Htrajectory) [flag st].
    unfold trajectory_step, trajectory_axiom_fails. rewrite <- Hkind.
    destruct (String.eqb_spec (axiom_kind a) "trajectory") as [Hk|]; [|reflexivity].
    rewrite (Htrajectory Hk). reflexivity. }
  destruct (find (state_axiom_fails candidate state) (axioms persona)) eqn:Es,
           (find (state_axiom_fails candidate state) (axioms persona')) eqn:Es';
    try reflexivity;
    try (destruct Hs as [Hs1 Hs2]; first [specialize (Hs1 eq_refl)|specialize (Hs2 eq_refl)];
         discriminate).
  destruct (find (history_axiom_fails _) (axioms persona)) eqn:Eh,
           (find (history_axiom_fails _) (axioms persona')) eqn:Eh';
    try reflexivity;
    try (destruct Hh as [Hh1 Hh2]; first [specialize (Hh1 eq_refl)|specialize (Hh2 eq_refl)];
         discriminate).
  rewrite Ht, Hprims. reflexivity.
Qed.

End LoopFacts.

(* ================================================================== *)
(** ** The exits of a call *)
(* ================================================================== *)

Section Exits.
Import PyStr.
Context `{Lower}.

(** C1: when some state axiom fails on the candidate, the call stops at
    the first such axiom in definition order: the axioms before it pass,
    whatever follows it (later axioms, primitives, schema) has no part in
    the outcome, the response is the first fallback message, the axiom
    pressure grows by exactly 1 and the history, the engrams and the
    primitive saturation are those of the state before the call. *)
Theorem C1_state_axiom_failure_short_circuits
    (persona : PersonaSpec) (state : PersonaState) (user_input : string) :
  let candidate := naive_model user_input in
  (exists ax, In ax (axioms persona) /\ axiom_kind ax = "state"
              /\ axiom_check ax (StateArgs candidate state) = false) ->
  (exists pre ax post,
      axioms persona = pre ++ ax :: post
      /\ axiom_kind ax = "state"
      /\ axiom_check ax (StateArgs candidate state) = false
      /\ (forall a, In a pre -> axiom_kind a = "state" ->
                    axiom_check a (StateArgs candidate state) = true)
      /\ forall post' prims schema,
           persona_transform (mkPersonaSpec (pre ++ ax :: post') prims schema)
                             state user_input
           = (FALLBACK_STATE, bump_axiom_pressure state))
  /\ fst (persona_transform persona state user_input) = FALLBACK_STATE
  /\ let state' := snd (persona_transform persona state user_input) in
     axiom_pressure state' = axiom_pressure state + 1
     /\ history state' = history state
     /\ engrams state' = engrams state
     /\ primitive_saturation state' = primitive_saturation state.
Proof.
  intros candidate Hfail.
  destruct (find_first (state_axiom_fails candidate state) (axioms persona))
    as (pre & ax & post & Hsplit & Hax & Hpre & Hfind).
  { destruct Hfail as (ax & Hin & Hkind & Hcheck). exists ax. split; [exact Hin|].
    unfold state_axiom_fails. rewrite Hkind, Hcheck. reflexivity. }
  assert (Hexit : forall post' prims schema,
             persona_transform (mkPersonaSpec (pre ++ ax :: post') prims schema)
                               state user_input
             = (FALLBACK_STATE, bump_axiom_pressure state)).
  { intros post' prims schema. unfold persona_transform. fold candidate.
    simpl axioms. rewrite Hfind. reflexivity. }
  apply andb_true_iff in Hax as [Hkind Hcheck].
  apply String.eqb_eq in Hkind. apply negb_true_iff in Hcheck.
  split.
  - exists pre, ax, post. repeat split; try assumption.
    intros a Hin Hk. specialize (Hpre a Hin). unfold state_axiom_fails in Hpre.
    rewrite Hk in Hpre. simpl in Hpre. apply negb_false_iff in Hpre. exact Hpre.
  - specialize (Hexit post (primitives persona) (engram_schema persona)).
    rewrite <- Hsplit in Hexit.
    replace (mkPersonaSpec _ _ _) with persona in Hexit by (destruct persona; reflexivity).
    rewrite Hexit. simpl. repeat split; reflexivity.
Qed.

(** C3: when every state axiom passes and some history axiom fails on the
    proposed history (the history with the candidate appended), the call
    stops at the first such axiom in definition order, answers with the
    second fallback message and changes the axiom pressure only, by
    exactly 1. *)
Theorem C3_history_axiom_failure_short_circuits
    (persona : PersonaSpec) (state : PersonaState) (user_input : string) :
  let candidate := naive_model user_input in
  let proposed_history := history state ++ [candidate] in
  (forall ax, In ax (axioms persona) -> axiom_kind ax = "state" ->
              axiom_check ax (StateArgs candidate state) = true) ->
  (exists ax, In ax (axioms persona) /\ axiom_kind ax = "history"
              /\ axiom_check ax (HistoryArgs proposed_history) = false) ->
  (exists pre ax post,
      axioms persona = pre ++ ax :: post
      /\ axiom_kind ax = "history"
      /\ axiom_check ax (HistoryArgs proposed_history) = false
      /\ (forall a, In a pre -> axiom_kind a = "history" ->
                    axiom_check a (HistoryArgs proposed_history) = true))
  /\ fst (persona_transform persona state user_input) = FALLBACK_HISTORY
  /\ let state' := snd (persona_transform persona state user_input) in
     axiom_pressure state' = axiom_pressure state + 1
     /\ history state' = history state
     /\ engrams state' = engrams state
     /\ primitive_saturation state' = primitive_saturation state.
Proof.
  intros candidate proposed_history Hstate Hfail.
  assert (Hs : find (state_axiom_fails candidate state) (axioms persona) = None).
  { apply find_is_None. intros ax Hin. unfold state_axiom_fails.
    destruct (String.eqb_spec (axiom_kind ax) "state") as [Hk|Hk]; [|reflexivity].
    rewrite (Hstate ax Hin Hk). reflexivity. }
  destruct (find_first (history_axiom_fails proposed_history) (axioms persona))
    as (pre & ax & post & Hsplit & Hax & Hpre & Hfind).
  { destruct Hfail as (ax & Hin & Hkind & Hcheck). exists ax. split; [exact Hin|].
    unfold history_axiom_fails. rewrite Hkind, Hcheck. reflexivity. }
  apply andb_true_iff in Hax as [Hkind Hcheck].
  apply String.eqb_eq in Hkind. apply negb_true_iff in Hcheck.
  split.
  - exists pre, ax, post. repeat split; try assumption.
    intros a Hin Hk. specialize (Hpre a Hin). unfold history_axiom_fails in Hpre.
    rewrite Hk in Hpre. simpl in Hpre. apply negb_false_iff in Hpre. exact Hpre.
  - unfold persona_transform. fold candidate. rewrite Hs.
    fold proposed_history. rewrite Hsplit, Hfind. simpl.
    repeat split; reflexivity.
Qed.

(** C2: when every state axiom and every history axiom passes, every
    trajectory axiom is evaluated: the axiom pressure grows by the number
    of failing trajectory axioms; when at least one fails, the primitives
    are applied in definition order, each on the output of the one before,
    and the primitive saturation grows by the number of primitives,
    whether or not they change the text; the resulting candidate is
    appended to the history, counted under "career_reflection" and
    returned. *)
Theorem C2_trajectory_repair_commit
    (persona : PersonaSpec) (state : PersonaState) (user_input : string) :
  let candidate := naive_model user_input in
  (forall ax, In ax (axioms persona) -> axiom_kind ax = "state" ->
              axiom_check ax (StateArgs candidate state) = true) ->
  (forall ax, In ax (axioms persona) -> axiom_kind ax = "history" ->
              axiom_check ax (HistoryArgs (history state ++ [candidate])) = true) ->
  let failing :=
    List.filter
      (fun ax => (axiom_kind ax =? "trajectory")%string
                 && negb (axiom_check ax (TrajectoryArgs (history state) candidate)))
      (axioms persona) in
  let violation := negb (Nat.eqb (length failing) 0) in
  let repaired :=
    if violation
    then fold_left (fun text prim => primitive_apply prim text)
                   (primitives persona) candidate
    else candidate in
  let state' := snd (persona_transform persona state user_input) in
  fst (persona_transform persona state user_input) = repaired
  /\ axiom_pressure state' = axiom_pressure state + Z.of_nat (length failing)
  /\ primitive_saturation state'
     = primitive_saturation state
       + (if violation then Z.of_nat (length (primitives persona)) else 0)
  /\ history state' = history state ++ [repaired]
  /\ engrams state'
     = <["career_reflection" :=
          default 0 (engrams state !! "career_reflection") + 1]> (engrams state).
Proof.
  intros candidate Hstate Hhistory failing violation repaired state'.
  assert (Hs : find (state_axiom_fails candidate state) (axioms persona) = None).
  { apply find_is_None. intros ax Hin. unfold state_axiom_fails.
    destruct (String.eqb_spec (axiom_kind ax) "state") as [Hk|Hk]; [|reflexivity].
    rewrite (Hstate ax Hin Hk). reflexivity. }
  assert (Hh : find (history_axiom_fails (history state ++ [candidate]))
                    (axioms persona) = None).
  { apply find_is_None. intros ax Hin. unfold history_axiom_fails.
    destruct (String.eqb_spec (axiom_kind ax) "history") as [Hk|Hk]; [|reflexivity].
    rewrite (Hhistory ax Hin Hk). reflexivity. }
  subst state'. rewrite (persona_transform_commits persona state user_input Hs Hh).
  fold candidate. unfold committed_state, committed_candidate.
  change (List.filter (trajectory_axiom_fails (history state) candidate)
                      (axioms persona)) with failing.
  subst repaired violation. unfold apply_primitives.
  destruct failing as [|ax failing]; simpl; repeat split; try reflexivity; lia.
Qed.

End Exits.

(* ================================================================== *)
(** ** Drift detection *)
(* ================================================================== *)

(** C4: [detect_drift] only reads the state; it tests the axiom pressure
    first and the primitive saturation second, both with a strict
    comparison, so that a state sitting exactly on both thresholds is
    stable.  The three statuses are pairwise different. *)
Theorem C4_detect_drift_order
    (state : PersonaState) (axiom_threshold primitive_threshold : Z) :
  (axiom_pressure state > axiom_threshold ->
   detect_drift state axiom_threshold primitive_threshold = DRIFT_AXIOM_PRESSURE)
  /\ (axiom_pressure state <= axiom_threshold ->
      primitive_saturation state > primitive_threshold ->
      detect_drift state axiom_threshold primitive_threshold
      = DRIFT_PRIMITIVE_SATURATION)
  /\ (axiom_pressure state <= axiom_threshold ->
      primitive_saturation state <= primitive_threshold ->
      detect_drift state axiom_threshold primitive_threshold = PERSONA_STABLE)
  /\ (axiom_pressure state = axiom_threshold ->
      primitive_saturation state = primitive_threshold ->
      detect_drift state axiom_threshold primitive_threshold = PERSONA_STABLE)
  /\ DRIFT_AXIOM_PRESSURE <> DRIFT_PRIMITIVE_SATURATION
  /\ DRIFT_AXIOM_PRESSURE <> PERSONA_STABLE
  /\ DRIFT_PRIMITIVE_SATURATION <> PERSONA_STABLE.
Proof.
  unfold detect_drift.
  repeat split; try discriminate; intros;
    destruct (Z.gtb_spec (axiom_pressure state) axiom_threshold);
    destruct (Z.gtb_spec (primitive_saturation state) primitive_threshold);
    try reflexivity; lia.
Qed.

(* ================================================================== *)
(** ** The reference persona with the naive model *)
(* ================================================================== *)

Section Reference.
Import PyStr.
Context `{LowerSpec}.

Lemma naive_model_cases user_input :
  (contains "what should i do" (lower user_input) = true
   /\ naive_model user_input = "You should quit your job and do exactly what I say.")
  \/ (contains "what should i do" (lower user_input) = false
      /\ naive_model user_input = "Here is a helpful suggestion.").
Proof.
  unfold naive_model. destruct (contains _ (lower user_input)); auto.
Qed.

Lemma no_authority_claim_directive state :
  no_authority_claim "You should quit your job and do exactly what I say." state = false.
Proof.
  unfold no_authority_claim. rewrite lower_ascii by reflexivity.
  vm_compute. reflexivity.
Qed.

Lemma no_authority_claim_suggestion state :
  no_authority_claim "Here is a helpful suggestion." state = true.
Proof.
  unfold no_authority_claim. rewrite lower_ascii by reflexivity.
  vm_compute. reflexivity.
Qed.

(** Neither answer of the naive model carries the phrase the trajectory
    axiom looks for. *)
Lemma naive_model_no_dependency_phrase user_input :
  contains "check in with me every day" (lower (naive_model user_input)) = false.
Proof.
  destruct (naive_model_cases user_input) as [[_ ->]|[_ ->]];
    rewrite lower_ascii by reflexivity; vm_compute; reflexivity.
Qed.

Lemma trajectory_axiom_never_fails hist user_input :
  List.filter (trajectory_axiom_fails hist (naive_model user_input)) (axioms PERSONA) = [].
Proof.
  unfold PERSONA, AXIOMS, trajectory_axiom_fails. simpl.
  unfold no_dependency_trajectory. rewrite naive_model_no_dependency_phrase.
  reflexivity.
Qed.

(** A prompt with the trigger phrase is stopped by the state axiom. *)
Lemma persona_transform_trigger state user_input :
  contains "what should i do" (lower user_input) = true ->
  persona_transform PERSONA state user_input
  = (FALLBACK_STATE, bump_axiom_pressure state).
Proof.
  intros Htrigger. unfold persona_transform.
  destruct (naive_model_cases user_input) as [[_ ->]|[Hno _]]; [|congruence].
  unfold PERSONA, AXIOMS, state_axiom_fails. simpl.
  rewrite no_authority_claim_directive. reflexivity.
Qed.

(** C5: from the empty state, three prompts that carry the trigger phrase
    "what should i do" are each answered with the first fallback message;
    the history stays empty and the axiom pressure reads 1, 2 and 3 after
    the first, second and third call. *)
Theorem C5_three_trigger_prompts (input1 input2 input3 : string) :
  contains "what should i do" (lower input1) = true ->
  contains "what should i do" (lower input2) = true ->
  contains "what should i do" (lower input3) = true ->
  let call1 := persona_transform PERSONA empty_state input1 in
  let call2 := persona_transform PERSONA (snd call1) input2 in
  let call3 := persona_transform PERSONA (snd call2) input3 in
  (fst call1 = FALLBACK_STATE
   /\ length (history (snd call1)) = 0%nat /\ axiom_pressure (snd call1) = 1)
  /\ (fst call2 = FALLBACK_STATE
      /\ length (history (snd call2)) = 0%nat /\ axiom_pressure (snd call2) = 2)
  /\ (fst call3 = FALLBACK_STATE
      /\ length (history (snd call3)) = 0%nat /\ axiom_pressure (snd call3) = 3)
  /\ run PERSONA empty_state [input1; input2; input3]
     = ([FALLBACK_STATE; FALLBACK_STATE; FALLBACK_STATE], snd call3).
Proof.
  intros H1 H2 H3 call1 call2 call3.
  assert (E1 : call1 = (FALLBACK_STATE, bump_axiom_pressure empty_state))
    by (apply persona_transform_trigger; exact H1).
  assert (E2 : call2 = (FALLBACK_STATE,
                        bump_axiom_pressure (bump_axiom_pressure empty_state))).
  { subst call2. rewrite E1. apply persona_transform_trigger. exact H2. }
  assert (E3 : call3 = (FALLBACK_STATE,
                        bump_axiom_pressure
                          (bump_axiom_pressure (bump_axiom_pressure empty_state)))).
  { subst call3. rewrite E2. apply persona_transform_trigger. exact H3. }
  repeat split; try (rewrite ?E1, ?E2, ?E3; reflexivity).
  cbn [run]. fold call1. rewrite E1. cbn [snd]. fold call1.
  rewrite (persona_transform_trigger _ input2 H2).
  rewrite (persona_transform_trigger _ input3 H3).
  rewrite E3. reflexivity.
Qed.

(** C9: with the reference persona and the naive model the repair path is
    never taken: no candidate carries the phrase the trajectory axiom
    forbids, the trajectory loop never raises its flag, no call changes
    the primitive saturation, which therefore is 0 in every reachable
    state, and drift detection with the default thresholds never reports
    primitive saturation. *)
Theorem C9_repair_path_unreachable :
  (forall user_input,
      contains "check in with me every day" (lower (naive_model user_input)) = false)
  /\ (forall state user_input,
        fst (fold_left (trajectory_step (naive_model user_input))
                       (axioms PERSONA) (false, state)) = false)
  /\ (forall state user_input,
        primitive_saturation (snd (persona_transform PERSONA state user_input))
        = primitive_saturation state)
  /\ (forall state,
        reachable PERSONA state ->
        primitive_saturation state = 0
        /\ detect_drift_default state <> DRIFT_PRIMITIVE_SATURATION).
Proof.
  assert (Hframe : forall state user_input,
             primitive_saturation (snd (persona_transform PERSONA state user_input))
             = primitive_saturation state).
  { intros state user_input.
    destruct (persona_transform_cases PERSONA state user_input) as [->|[->| ->]];
      try reflexivity.
    unfold committed_state. rewrite trajectory_axiom_never_fails.
    simpl. lia. }
  split; [exact naive_model_no_dependency_phrase|].
  split.
  { intros state user_input. rewrite trajectory_loop_spec.
    rewrite trajectory_axiom_never_fails. reflexivity. }
  split; [exact Hframe|].
  intros state Hreach.
  assert (Hzero : primitive_saturation state = 0).
  { induction Hreach as [|persona state user_input -> _ IH]; [reflexivity|].
    rewrite Hframe. exact IH. }
  split; [exact Hzero|].
  unfold detect_drift_default, detect_drift. rewrite Hzero.
  destruct (axiom_pressure state >? 3); discriminate.
Qed.

End Reference.

(* ================================================================== *)
(** ** Invariants of the state *)
(* ================================================================== *)

Section Invariants.
Import PyStr.
Context `{Lower}.

(** What one call does to the history and to the engrams: nothing, or
    one more entry and one more under "career_reflection". *)
Lemma persona_transform_history_engrams persona state user_input :
  let state' := snd (persona_transform persona state user_input) in
  (fst (persona_transform persona state user_input) = FALLBACK_STATE
   \/ fst (persona_transform persona state user_input) = FALLBACK_HISTORY)
  /\ history state' = history state /\ engrams state' = engrams state
  \/ history state' = history state ++ [fst (persona_transform persona state user_input)]
     /\ engrams state'
        = <["career_reflection" :=
             default 0 (engrams state !! "career_reflection") + 1]> (engrams state).
Proof.
  destruct (persona_transform_cases persona state user_input) as [->|[->| ->]];
    simpl; auto.
Qed.



Lemma find_is_Some {A} (f : A -> bool) (l : list A) :
  (exists x, In x l /\ f x = true) -> exists y, find f l = Some y.
Proof.
  intros Hex. destruct (find_first f l Hex) as (pre & x & post & -> & _ & _ & Hfind).
  exists x. apply Hfind.
Qed.

(** A call in which a state axiom fails on the candidate, or a history
    axiom fails on the proposed history, leaves through a fallback exit:
    the state it leaves is the old one with one more axiom pressure. *)
Lemma short_circuit_exit persona state user_input :
  let candidate := naive_model user_input in
  (exists ax, In ax (axioms persona) /\ axiom_kind ax = "state"
              /\ axiom_check ax (StateArgs candidate state) = false)
  \/ (exists ax, In ax (axioms persona) /\ axiom_kind ax = "history"
                 /\ axiom_check ax (HistoryArgs (history state ++ [candidate])) = false) ->
  snd (persona_transform persona state user_input) = bump_axiom_pressure state.
Proof.
  intros candidate Hcause. unfold persona_transform. fold candidate.
  destruct (find (state_axiom_fails candidate state) (axioms persona)) eqn:Hs;
    [reflexivity|].
  destruct Hcause as [(ax & Hin & Hkind & Hcheck)|(ax & Hin & Hkind & Hcheck)].
  - pose proof (find_none _ _ Hs ax Hin) as Hpass.
    unfold state_axiom_fails in Hpass. rewrite Hkind, Hcheck in Hpass.
    discriminate Hpass.
  - destruct (find_is_Some (history_axiom_fails (history state ++ [candidate]))
                (axioms persona)) as [y Hy].
    { exists ax. split; [exact Hin|]. unfold history_axiom_fails.
      rewrite Hkind, Hcheck. reflexivity. }
    rewrite Hy. reflexivity.
Qed.

(** A call in which every state axiom passes on the candidate and every
    history axiom passes on the proposed history leaves through the
    commit. *)
Lemma commit_exit persona state user_input :
  let candidate := naive_model user_input in
  (forall ax, In ax (axioms persona) -> axiom_kind ax = "state" ->
              axiom_check ax (StateArgs candidate state) = true) ->
  (forall ax, In ax (axioms persona) -> axiom_kind ax = "history" ->
              axiom_check ax (HistoryArgs (history state ++ [candidate])) = true) ->
  persona_transform persona state user_input
  = (committed_candidate persona state candidate,
     committed_state persona state candidate).
Proof.
  intros candidate Hstate Hhistory. apply persona_transform_commits.
  - apply find_is_None. intros ax Hin. unfold state_axiom_fails.
    destruct (String.eqb_spec (axiom_kind ax) "state") as [Hk|Hk]; [|reflexivity].
    fold candidate. rewrite (Hstate ax Hin Hk). reflexivity.
  - apply find_is_None. intros ax Hin. unfold history_axiom_fails.
    destruct (String.eqb_spec (axiom_kind ax) "history") as [Hk|Hk]; [|reflexivity].
    fold candidate. rewrite (Hhistory ax Hin Hk). reflexivity.
Qed.

(** C10: in every reachable state, whichever persona definitions the
    calls were made with, the "career_reflection" count is the length of
    the history.  Call by call: a short-circuited call, one in which a
    state axiom fails on the candidate or a history axiom fails on the
    proposed history, changes neither the history nor the engrams; a
    committed call, one in which every state axiom and every history
    axiom passes, appends exactly one entry, its response, to the history
    and adds 1 to the "career_reflection" count and to no other. *)
Theorem C10_career_reflection_counts_history :
  (forall allowed state,
      reachable_by allowed state ->
      default 0 (engrams state !! "career_reflection")
      = Z.of_nat (length (history state)))
  /\ (forall persona state user_input,
        let candidate := naive_model user_input in
        let state' := snd (persona_transform persona state user_input) in
        (exists ax, In ax (axioms persona) /\ axiom_kind ax = "state"
                    /\ axiom_check ax (StateArgs candidate state) = false)
        \/ (exists ax, In ax (axioms persona) /\ axiom_kind ax = "history"
                       /\ axiom_check ax (HistoryArgs (history state ++ [candidate]))
                          = false) ->
        history state' = history state /\ engrams state' = engrams state)
  /\ (forall persona state user_input,
        let candidate := naive_model user_input in
        let response := fst (persona_transform persona state user_input) in
        let state' := snd (persona_transform persona state user_input) in
        (forall ax, In ax (axioms persona) -> axiom_kind ax = "state" ->
                    axiom_check ax (StateArgs candidate state) = true) ->
        (forall ax, In ax (axioms persona) -> axiom_kind ax = "history" ->
                    axiom_check ax (HistoryArgs (history state ++ [candidate])) = true) ->
        history state' = history state ++ [response]
        /\ length (history state') = S (length (history state))
        /\ engrams state' !! "career_reflection"
           = Some (default 0 (engrams state !! "career_reflection") + 1)
        /\ forall key, key <> "career_reflection" ->
                       engrams state' !! key = engrams state !! key).
Proof.
  split; [|split].
  - intros allowed state Hreach.
    induction Hreach as [|persona state user_input Hallowed Hreach IH];
      [reflexivity|].
    destruct (persona_transform_history_engrams persona state user_input)
      as [(_ & -> & ->)|[-> ->]]; [exact IH|].
    rewrite lookup_insert_eq, length_app. simpl. lia.
  - intros persona state user_input candidate state' Hcause. subst state'.
    rewrite (short_circuit_exit persona state user_input Hcause).
    split; reflexivity.
  - intros persona state user_input candidate response state' Hstate Hhistory.
    subst response state'.
    rewrite (commit_exit persona state user_input Hstate Hhistory).
    cbn [fst snd]. unfold committed_state. cbn [history engrams commit].
    split; [reflexivity|]. split; [rewrite length_app; simpl; lia|].
    split; [apply lookup_insert_eq|].
    intros key Hne. apply lookup_insert_ne. congruence.
Qed.

(** C8: the reference trajectory axiom does not look at the history, and
    fails exactly on the candidates whose lower-cased text contains
    "check in with me every day". *)
Theorem C8_trajectory_axiom_ignores_history :
  (forall (hist1 hist2 : list string) (candidate : string),
      no_dependency_trajectory hist1 candidate
      = no_dependency_trajectory hist2 candidate)
  /\ forall (hist : list string) (candidate : string),
       no_dependency_trajectory hist candidate = false
       <-> contains "check in with me every day" (lower candidate) = true.
Proof.
  split; [reflexivity|].
  intros hist candidate. unfold no_dependency_trajectory.
  apply negb_false_iff.
Qed.

End Invariants.

(* ================================================================== *)
(** ** Persona equivalence *)
(* ================================================================== *)

Lemma deepcopy_id (p : PersonaSpec) : deepcopy p = p.
Proof.
  destruct p as [axs prims schema]. unfold deepcopy. simpl. f_equal.
  - induction axs as [|[i k c] axs IH]; simpl; [reflexivity|]. rewrite IH. reflexivity.
  - induction prims as [|[i f] prims IH]; simpl; [reflexivity|]. rewrite IH. reflexivity.
  - apply map_id.
Qed.

(** C7: a persona is equivalent to its deep copy; in general two personas
    are equivalent exactly when their axiom ids, their primitive ids and
    their engram schemas are the same sequences, in the same order, so
    that replacing the check and apply functions of a persona by any
    others leaves it equivalent. *)
Theorem C7_persona_equivalent_structural :
  (forall p, persona_equivalent p (deepcopy p) = true)
  /\ (forall p1 p2,
        persona_equivalent p1 p2 = true
        <-> map axiom_id (axioms p1) = map axiom_id (axioms p2)
            /\ map primitive_id (primitives p1) = map primitive_id (primitives p2)
            /\ engram_schema p1 = engram_schema p2)
  /\ forall (p : PersonaSpec) (checks : Axiom_ -> CheckArgs -> bool)
            (applies : Primitive -> string -> string),
       persona_equivalent p
         (mkPersonaSpec
            (map (fun a => mkAxiom (axiom_id a) (axiom_kind a) (checks a)) (axioms p))
            (map (fun q => mkPrimitive (primitive_id q) (applies q)) (primitives p))
            (engram_schema p))
       = true.
Proof.
  assert (Hiff : forall p1 p2,
             persona_equivalent p1 p2 = true
             <-> map axiom_id (axioms p1) = map axiom_id (axioms p2)
                 /\ map primitive_id (primitives p1) = map primitive_id (primitives p2)
                 /\ engram_schema p1 = engram_schema p2).
  { intros p1 p2. unfold persona_equivalent, str_list_eqb.
    rewrite !andb_true_iff, !bool_decide_eq_true. tauto. }
  split; [|split; [exact Hiff|]].
  - intros p. rewrite deepcopy_id. apply Hiff. auto.
  - intros p checks applies. apply Hiff. simpl.
    rewrite !map_map. simpl. auto.
Qed.

(* ================================================================== *)
(** ** The theorems at work on concrete sessions *)
(* ================================================================== *)

Section Sessions.
Import PyStr.

Abbreviation persona_transform_ascii := (@persona_transform ascii_Lower).
Abbreviation PERSONA_ascii := (@PERSONA ascii_Lower).

(** The demo's first prompt is stopped by the state axiom. *)
Lemma C1_witness :
  let call := persona_transform_ascii PERSONA_ascii empty_state
                "What should I do with my career?" in
  fst call = FALLBACK_STATE
  /\ axiom_pressure (snd call) = 1
  /\ history (snd call) = []
  /\ engrams (snd call) = ∅
  /\ primitive_saturation (snd call) = 0.
Proof.
  intros call.
  destruct (@C1_state_axiom_failure_short_circuits ascii_Lower PERSONA_ascii
              empty_state "What should I do with my career?")
    as (_ & Hresponse & Hpressure & Hhistory & Hengrams & Hsaturation).
  - exists (mkAxiom "no_authority" "state"
                    (state_callable (@no_authority_claim ascii_Lower))).
    split; [left; reflexivity|]. split; [reflexivity|]. vm_compute. reflexivity.
  - fold call in Hresponse, Hpressure, Hhistory, Hengrams, Hsaturation.
    repeat split; assumption.
Defined.

(** A history that already carries the forbidden phrase stops a harmless
    candidate at the history axiom. *)
Lemma C3_witness :
  let state := {| history := ["Please do exactly what I say."];
                  engrams := {["career_reflection" := 1]};
                  axiom_pressure := 0;
                  primitive_saturation := 0 |} in
  let call := persona_transform_ascii PERSONA_ascii state "Hello there" in
  fst call = FALLBACK_HISTORY
  /\ axiom_pressure (snd call) = 1
  /\ history (snd call) = ["Please do exactly what I say."]
  /\ engrams (snd call) = {["career_reflection" := 1]}
  /\ primitive_saturation (snd call) = 0.
Proof.
  intros state call.
  destruct (@C3_history_axiom_failure_short_circuits ascii_Lower PERSONA_ascii
              state "Hello there")
    as (_ & Hresponse & Hpressure & Hhistory & Hengrams & Hsaturation).
  - intros ax [<-|[<-|[<-|[]]]] Hkind; try discriminate Hkind.
    vm_compute. reflexivity.
  - exists (mkAxiom "preserve_autonomy" "history"
                    (history_callable (@autonomy_preserved ascii_Lower))).
    split; [right; left; reflexivity|]. split; [reflexivity|].
    vm_compute. reflexivity.
  - fold call in Hresponse, Hpressure, Hhistory, Hengrams, Hsaturation.
    repeat split; assumption.
Defined.

(** With an axiom that always asks for a repair, the directive answer of
    the naive model is rewritten by the reference primitive and committed. *)
Lemma C2_witness :
  let call := persona_transform_ascii PERSONA_always_repair empty_state
                "what should i do?" in
  fst call = "One option you might consider is whether your current job still aligns with your long-term goals."
  /\ axiom_pressure (snd call) = 1
  /\ primitive_saturation (snd call) = 1
  /\ history (snd call) = [fst call]
  /\ engrams (snd call) !! "career_reflection" = Some 1.
Proof.
  cbv zeta.
  destruct (@C2_trajectory_repair_commit ascii_Lower
              PERSONA_always_repair empty_state "what should i do?")
    as (Hresponse & Hpressure & Hsaturation & Hhistory & Hengrams).
  - intros ax [<-|[]] Hkind. discriminate Hkind.
  - intros ax [<-|[]] Hkind. discriminate Hkind.
  - rewrite Hhistory, Hengrams, Hpressure, Hsaturation, Hresponse.
    vm_compute. repeat split; reflexivity.
Defined.

(** Three prompts with the trigger phrase, in three spellings. *)
Lemma C5_witness :
  run (H := ascii_Lower) PERSONA_ascii empty_state
      ["What should I do with my career?"; "What should I do next?";
       "Tell me: WHAT SHOULD I DO"]
  = ([FALLBACK_STATE; FALLBACK_STATE; FALLBACK_STATE],
     {| history := []; engrams := ∅; axiom_pressure := 3; primitive_saturation := 0 |}).
Proof.
  destruct (@C5_three_trigger_prompts ascii_Lower ascii_LowerSpec
              "What should I do with my career?" "What should I do next?"
              "Tell me: WHAT SHOULD I DO")
    as (_ & _ & _ & Hrun); [vm_compute; reflexivity ..|].
  rewrite Hrun. vm_compute. reflexivity.
Defined.

(** The third prompt of the demo, "what I should do", does not carry the
    trigger phrase: its answer is committed. *)
Example demo_third_prompt_is_committed :
  let call := persona_transform_ascii PERSONA_ascii empty_state
                "Just tell me what I should do." in
  fst call = "Here is a helpful suggestion."
  /\ history (snd call) = ["Here is a helpful suggestion."]
  /\ axiom_pressure (snd call) = 0.
Proof. vm_compute. repeat split; reflexivity. Qed.

(** The trajectory axiom matches whatever the case of the candidate and
    whatever the history. *)
Example no_dependency_trajectory_upper_case :
  @no_dependency_trajectory ascii_Lower [] "Please CHECK IN with me every day!" = false
  /\ @no_dependency_trajectory ascii_Lower ["check in with me every day"] "Hello" = true.
Proof. split; vm_compute; reflexivity. Qed.



(** The reference persona never repairs, whatever the session. *)
Lemma C9_witness :
  let state := snd (persona_transform_ascii PERSONA_ascii empty_state
                      "What should I do with my career?") in
  primitive_saturation state = 0
  /\ detect_drift_default state <> DRIFT_PRIMITIVE_SATURATION.
Proof.
  intros state.
  apply (proj2 (proj2 (proj2 (@C9_repair_path_unreachable ascii_Lower ascii_LowerSpec)))).
  apply reachable_call; [reflexivity|apply reachable_empty].
Defined.

End Sessions.

(* ================================================================== *)
(** ** Facts about the string operations *)
(* ================================================================== *)

Section StringFacts.
Import PyStr.

Lemma prefix_nil_r (sub : string) :
  String.prefix sub EmptyString = true -> sub = EmptyString.
Proof. destruct sub; [reflexivity|discriminate]. Qed.

Lemma prefix_app_r (sub s t : string) :
  String.prefix sub s = true -> String.prefix sub (s +:+ t) = true.
Proof.
  revert sub. induction s as [|b s IH]; intros sub Hp.
  - apply prefix_nil_r in Hp. subst sub. destruct t; reflexivity.
  - destruct sub as [|a sub]; [reflexivity|]. simpl in *.
    destruct (ascii_dec a b); [apply IH; exact Hp|discriminate].
Qed.

Lemma prefix_app_self (s t : string) : String.prefix s (s +:+ t) = true.
Proof.
  induction s as [|a s IH]; [destruct t; reflexivity|].
  simpl. destruct (ascii_dec a a); [exact IH|congruence].
Qed.

Lemma contains_app_r (sub s t : string) :
  contains sub s = true -> contains sub (s +:+ t) = true.
Proof.
  induction s as [|b s IH]; intros Hc.
  - simpl in Hc. rewrite orb_false_r in Hc. apply prefix_nil_r in Hc. subst sub.
    destruct t; reflexivity.
  - cbn [contains] in Hc. apply orb_true_iff in Hc as [Hp|Hc].
    + change (String b s +:+ t) with (String b (s +:+ t)).
      cbn [contains]. change (String b (s +:+ t)) with (String b s +:+ t).
      rewrite (prefix_app_r _ _ t Hp). reflexivity.
    + change (String b s +:+ t) with (String b (s +:+ t)).
      cbn [contains]. rewrite (IH Hc). apply orb_true_r.
Qed.

Lemma count_from_nonneg (sub : string) (skip : nat) (s : string) :
  0 <= count_from sub skip s.
Proof.
  revert skip. induction s as [|b s IH]; intros skip.
  - destruct sub; simpl; lia.
  - cbn [count_from]. destruct skip; [|apply IH].
    destruct (String.prefix sub (String b s)); [|apply IH].
    specialize (IH (Nat.pred (String.length sub))). lia.
Qed.

(** [s.count(sub) < 1] says that [sub] is not in [s]. *)
Lemma count_lt_1_iff (sub s : string) :
  (count sub s <? 1) = negb (contains sub s).
Proof.
  unfold count. induction s as [|b s IH].
  - destruct sub; reflexivity.
  - cbn [count_from contains].
    destruct (String.prefix sub (String b s)); [|exact IH].
    simpl. pose proof (count_from_nonneg sub (Nat.pred (String.length sub)) s).
    apply Z.ltb_ge. lia.
Qed.

(** [s.replace(old, new)] returns [s] when [old] is not in [s]. *)
Lemma replace_absent (old new s : string) :
  contains old s = false -> replace old new s = s.
Proof.
  unfold replace. induction s as [|b s IH]; intros Hc.
  - destruct old; [discriminate|reflexivity].
  - cbn [contains] in Hc. apply orb_false_iff in Hc as [Hp Hc].
    cbn [replace_from]. rewrite Hp, (IH Hc). reflexivity.
Qed.

Lemma replace_from_skip (old new t rest : string) :
  replace_from old new (String.length t) (t +:+ rest) = replace_from old new O rest.
Proof.
  induction t as [|b t IH]; [reflexivity|]. simpl. exact IH.
Qed.

(** A leading occurrence of [old] is replaced and the scan resumes after
    it. *)
Lemma replace_leading (old new rest : string) :
  old <> EmptyString ->
  replace old new (old +:+ rest) = new +:+ replace old new rest.
Proof.
  intros Hne. unfold replace. destruct old as [|a t]; [congruence|].
  change (String a t +:+ rest) with (String a (t +:+ rest)).
  cbn [replace_from].
  change (String a (t +:+ rest)) with (String a t +:+ rest) at 1.
  rewrite prefix_app_self. cbn [String.length Nat.pred].
  rewrite replace_from_skip. reflexivity.
Qed.

Lemma occurs_app (c : ascii) (s t : string) :
  occurs c (s +:+ t) = occurs c s || occurs c t.
Proof.
  induction s as [|b s IH]; [reflexivity|]. simpl. rewrite IH, orb_assoc. reflexivity.
Qed.

Lemma prefix_occurs (c : ascii) (sub s : string) :
  String.prefix sub s = true -> occurs c sub = true -> occurs c s = true.
Proof.
  revert sub. induction s as [|b s IH]; intros sub Hp Hc.
  - apply prefix_nil_r in Hp. subst sub. discriminate.
  - destruct sub as [|a sub]; [discriminate|]. simpl in *.
    destruct (ascii_dec a b) as [->|]; [|discriminate].
    apply orb_true_iff in Hc as [Hc|Hc]; [rewrite Hc; reflexivity|].
    rewrite (IH sub Hp Hc). apply orb_true_r.
Qed.

(** A text that lacks one character of [sub] does not contain [sub]. *)
Lemma contains_occurs (c : ascii) (sub s : string) :
  contains sub s = true -> occurs c sub = true -> occurs c s = true.
Proof.
  induction s as [|b s IH]; intros Hs Hc.
  - simpl in Hs. rewrite orb_false_r in Hs. eapply prefix_occurs; eassumption.
  - cbn [contains] in Hs. apply orb_true_iff in Hs as [Hp|Hs].
    + eapply prefix_occurs; eassumption.
    + simpl. rewrite (IH Hs Hc). apply orb_true_r.
Qed.

Lemma ascii_lower_app (s t : string) :
  ascii_lower (s +:+ t) = ascii_lower s +:+ ascii_lower t.
Proof. induction s as [|b s IH]; [reflexivity|]. simpl. rewrite IH. reflexivity. Qed.

Lemma is_ascii_app (s t : string) :
  is_ascii (s +:+ t) = is_ascii s && is_ascii t.
Proof.
  induction s as [|b s IH]; [reflexivity|]. simpl. rewrite IH, andb_assoc. reflexivity.
Qed.

Lemma append_assoc (s t u : string) : (s +:+ t) +:+ u = s +:+ t +:+ u.
Proof.
  induction s as [|b s IH]; [reflexivity|].
  change (String b ((s +:+ t) +:+ u) = String b (s +:+ t +:+ u)).
  rewrite IH. reflexivity.
Qed.

Lemma join_snoc (sep : string) (parts : list string) (last : string) :
  join sep (parts ++ [last])
  = match parts with
    | [] => last
    | _ :: _ => join sep parts +:+ sep +:+ last
    end.
Proof.
  unfold join. induction parts as [|x parts IH]; [reflexivity|].
  destruct parts as [|y parts]; [reflexivity|].
  change ((x :: y :: parts) ++ [last]) with (x :: ((y :: parts) ++ [last])).
  change (String.concat sep (x :: (y :: parts) ++ [last]))
    with (x +:+ sep +:+ String.concat sep ((y :: parts) ++ [last])).
  rewrite IH.
  change (String.concat sep (x :: y :: parts))
    with (x +:+ sep +:+ String.concat sep (y :: parts)).
  rewrite !append_assoc. reflexivity.
Qed.

Lemma is_ascii_join (sep : string) (parts : list string) :
  is_ascii sep = true -> Forall (fun part => is_ascii part = true) parts ->
  is_ascii (join sep parts) = true.
Proof.
  intros Hsep. unfold join. induction 1 as [|x parts Hx Hparts IH]; [reflexivity|].
  destruct parts as [|y parts]; [exact Hx|].
  change (String.concat sep (x :: y :: parts))
    with (x +:+ sep +:+ String.concat sep (y :: parts)).
  rewrite !is_ascii_app, Hx, Hsep, IH. reflexivity.
Qed.

End StringFacts.

(* ================================================================== *)
(** ** What every call keeps, for any persona definition *)
(* ================================================================== *)

Section Calls.
Import PyStr.
Context `{Lower}.

Lemma run_cons persona state user_input rest :
  run persona state (user_input :: rest)
  = (fst (persona_transform persona state user_input)
       :: fst (run persona (snd (persona_transform persona state user_input)) rest),
     snd (run persona (snd (persona_transform persona state user_input)) rest)).
Proof.
  cbn [run]. destruct (persona_transform persona state user_input) as [response state'].
  cbn [fst snd]. destruct (run persona state' rest). reflexivity.
Qed.

(** A call never lowers a counter, never rewrites or shortens the
    history (it appends at most one entry) and never lowers or removes an
    engram count. *)
Lemma call_only_grows
    (persona : PersonaSpec) (state : PersonaState) (user_input : string) :
  let state' := snd (persona_transform persona state user_input) in
  axiom_pressure state <= axiom_pressure state'
  /\ primitive_saturation state <= primitive_saturation state'
  /\ (history state' = history state
      \/ exists entry, history state' = history state ++ [entry])
  /\ forall key count,
       engrams state !! key = Some count ->
       exists count', engrams state' !! key = Some count' /\ count <= count'.
Proof.
  destruct (persona_transform_cases persona state user_input) as [->|[->| ->]];
    cbn [snd].
  - simpl. repeat split; try lia; [left; reflexivity|]. eauto with zarith.
  - simpl. repeat split; try lia; [left; reflexivity|]. eauto with zarith.
  - unfold committed_state.
    set (failing := List.filter _ (axioms persona)).
    set (repairs := match failing with [] => O | _ :: _ => length (primitives persona) end).
    simpl. repeat split; try lia; [right; eauto|].
    intros key count Hkey.
    destruct (decide (key = "career_reflection")) as [->|Hne].
    + rewrite lookup_insert_eq, Hkey. simpl. eexists. split; [reflexivity|lia].
    + rewrite lookup_insert_ne by congruence. eauto with zarith.
Qed.

Lemma find_filter_None {A} (f g : A -> bool) (l : list A) :
  (forall a, f a = true -> g a = true) ->
  find f (List.filter g l) = None <-> find f l = None.
Proof.
  intros Hfg. induction l as [|a l IH]; simpl; [tauto|].
  destruct (g a) eqn:Hg; simpl.
  - destruct (f a); [split; discriminate|exact IH].
  - destruct (f a) eqn:Hf; [|exact IH]. rewrite (Hfg a Hf) in Hg. discriminate.
Qed.

Lemma fold_left_filter {A B} (step : B -> A -> B) (g : A -> bool) (l : list A) :
  (forall acc a, g a = false -> step acc a = acc) ->
  forall acc, fold_left step (List.filter g l) acc = fold_left step l acc.
Proof.
  intros Hskip. induction l as [|a l IH]; intros acc; simpl; [reflexivity|].
  destruct (g a) eqn:Hg; simpl; [apply IH|]. rewrite (Hskip acc a Hg). apply IH.
Qed.

Lemma known_kind_false ax :
  known_kind ax = false ->
  (axiom_kind ax =? "state")%string = false
  /\ (axiom_kind ax =? "history")%string = false
  /\ (axiom_kind ax =? "trajectory")%string = false.
Proof.
  unfold known_kind. intros Hk.
  apply orb_false_iff in Hk as [Hk Ht]. apply orb_false_iff in Hk as [Hs Hh]. auto.
Qed.

(** X2: an axiom whose kind is none of "state", "history" and
    "trajectory" is never checked and raises no error: dropping every such
    axiom from a persona changes neither the response nor the state a call
    leaves behind. *)
Theorem persona_transform_ignores_unknown_kinds
    (persona : PersonaSpec) (state : PersonaState) (user_input : string) :
  persona_transform
    (mkPersonaSpec (List.filter known_kind (axioms persona))
                   (primitives persona) (engram_schema persona))
    state user_input
  = persona_transform persona state user_input.
Proof.
  unfold persona_transform. cbn [axioms primitives].
  set (candidate := naive_model user_input).
  assert (Hs : find (state_axiom_fails candidate state)
                    (List.filter known_kind (axioms persona)) = None
               <-> find (state_axiom_fails candidate state) (axioms persona) = None).
  { apply find_filter_None. intros a Ha. unfold state_axiom_fails in Ha.
    apply andb_true_iff in Ha as [Ha _]. unfold known_kind. rewrite Ha. reflexivity. }
  assert (Hh : find (history_axiom_fails (history state ++ [candidate]))
                    (List.filter known_kind (axioms persona)) = None
               <-> find (history_axiom_fails (history state ++ [candidate]))
                        (axioms persona) = None).
  { apply find_filter_None. intros a Ha. unfold history_axiom_fails in Ha.
    apply andb_true_iff in Ha as [Ha _]. unfold known_kind. rewrite Ha.
    rewrite orb_true_r. reflexivity. }
  assert (Ht : forall acc,
             fold_left (trajectory_step candidate)
                       (List.filter known_kind (axioms persona)) acc
             = fold_left (trajectory_step candidate) (axioms persona) acc).
  { apply fold_left_filter. intros [flag st] a Ha.
    apply known_kind_false in Ha as (_ & _ & Ha).
    unfold trajectory_step, trajectory_axiom_fails. rewrite Ha. reflexivity. }
  destruct (find (state_axiom_fails candidate state)
                 (List.filter known_kind (axioms persona))) eqn:Es,
           (find (state_axiom_fails candidate state) (axioms persona)) eqn:Es';
    try reflexivity;
    try (destruct Hs as [Hs1 Hs2];
         first [specialize (Hs1 eq_refl)|specialize (Hs2 eq_refl)]; discriminate).
  destruct (find (history_axiom_fails _)
                 (List.filter known_kind (axioms persona))) eqn:Eh,
           (find (history_axiom_fails _) (axioms persona)) eqn:Eh';
    try reflexivity;
    try (destruct Hh as [Hh1 Hh2];
         first [specialize (Hh1 eq_refl)|specialize (Hh2 eq_refl)]; discriminate).
  rewrite Ht. reflexivity.
Qed.

(** X3: a call that leaves the axiom pressure as it was is a plain
    pass-through: the response is the naive model's candidate, unrepaired,
    it is appended to the history, and the primitive saturation is left as
    it was. *)
Theorem persona_transform_quiet_call
    (persona : PersonaSpec) (state : PersonaState) (user_input : string) :
  axiom_pressure (snd (persona_transform persona state user_input))
  = axiom_pressure state ->
  fst (persona_transform persona state user_input) = naive_model user_input
  /\ history (snd (persona_transform persona state user_input))
     = history state ++ [naive_model user_input]
  /\ primitive_saturation (snd (persona_transform persona state user_input))
     = primitive_saturation state.
Proof.
  destruct (persona_transform_cases persona state user_input) as [->|[->| ->]];
    cbn [fst snd]; try (simpl; lia).
  unfold committed_state, committed_candidate.
  destruct (List.filter _ (axioms persona)) as [|ax failing]; simpl; intros Hp.
  - repeat split; try reflexivity. lia.
  - lia.
Qed.

Lemma run_counters_grow persona inputs state :
  axiom_pressure state <= axiom_pressure (snd (run persona state inputs))
  /\ primitive_saturation state
     <= primitive_saturation (snd (run persona state inputs)).
Proof.
  revert state. induction inputs as [|user_input rest IH]; intros state.
  - simpl. lia.
  - rewrite run_cons. cbn [snd].
    destruct (call_only_grows persona state user_input) as (Hp & Hs & _).
    destruct (IH (snd (persona_transform persona state user_input))) as [Hp' Hs'].
    lia.
Qed.

(** X1: the two counters, the length of the history and every engram
    count can only grow along a session, whatever the inputs; there is one
    response per input. *)
Theorem run_only_grows
    (persona : PersonaSpec) (inputs : list string) (state : PersonaState) :
  let state' := snd (run persona state inputs) in
  length (fst (run persona state inputs)) = length inputs
  /\ axiom_pressure state <= axiom_pressure state'
  /\ primitive_saturation state <= primitive_saturation state'
  /\ (exists entries,
         history state' = history state ++ entries
         /\ (length entries <= length inputs)%nat)
  /\ forall key count,
       engrams state !! key = Some count ->
       exists count', engrams state' !! key = Some count' /\ count <= count'.
Proof.
  revert state. induction inputs as [|user_input rest IH]; intros state.
  - simpl. repeat split; try lia; [|eauto with zarith].
    exists []. rewrite app_nil_r. split; [reflexivity|simpl; lia].
  - rewrite run_cons. cbn [fst snd length].
    destruct (call_only_grows persona state user_input)
      as (Hp & Hs & Hh & He).
    destruct (IH (snd (persona_transform persona state user_input)))
      as (Hlen & Hp' & Hs' & (entries & Hh' & Hle) & He').
    repeat split; try lia.
    + destruct Hh as [Hh|[entry Hh]]; rewrite Hh in Hh'.
      * exists entries. split; [exact Hh'|lia].
      * exists (entry :: entries). rewrite <- app_assoc in Hh'.
        split; [exact Hh'|simpl; lia].
    + intros key count Hkey. destruct (He key count Hkey) as (c1 & Hk1 & Hle1).
      destruct (He' key c1 Hk1) as (c2 & Hk2 & Hle2). exists c2. split; [exact Hk2|lia].
Qed.

(** X4: once drift is reported it stays reported: if [detect_drift] does
    not answer "stable" before a session, it does not after it, under the
    same thresholds; and a report of high axiom pressure remains one. *)
Theorem drift_is_sticky
    (persona : PersonaSpec) (state : PersonaState) (inputs : list string)
    (axiom_threshold primitive_threshold : Z) :
  detect_drift state axiom_threshold primitive_threshold <> PERSONA_STABLE ->
  let state' := snd (run persona state inputs) in
  detect_drift state' axiom_threshold primitive_threshold <> PERSONA_STABLE
  /\ (detect_drift state axiom_threshold primitive_threshold = DRIFT_AXIOM_PRESSURE ->
      detect_drift state' axiom_threshold primitive_threshold = DRIFT_AXIOM_PRESSURE).
Proof.
  intros Hdrift state'.
  destruct (run_counters_grow persona inputs state) as [Hp Hs].
  fold state' in Hp, Hs. revert Hdrift. unfold detect_drift.
  destruct (Z.gtb_spec (axiom_pressure state) axiom_threshold);
    destruct (Z.gtb_spec (primitive_saturation state) primitive_threshold);
    destruct (Z.gtb_spec (axiom_pressure state') axiom_threshold);
    destruct (Z.gtb_spec (primitive_saturation state') primitive_threshold);
    intros Hdrift; split; try discriminate; try congruence; try lia.
Qed.

(** X6: in every state a session can reach, with any persona
    definitions, both counters are non-negative and every engram count
    that is present is at least 1. *)
Theorem reachable_counters_nonneg
    (allowed : PersonaSpec -> Prop) (state : PersonaState) :
  reachable_by allowed state ->
  0 <= axiom_pressure state
  /\ 0 <= primitive_saturation state
  /\ forall key count, engrams state !! key = Some count -> 1 <= count.
Proof.
  induction 1 as [|persona state user_input Hallowed Hreach (IHp & IHs & IHe)].
  - simpl. repeat split; try lia. intros key count Hkey.
    rewrite lookup_empty in Hkey. discriminate.
  - destruct (call_only_grows persona state user_input)
      as (Hp & Hs & _ & _).
    repeat split; try lia.
    intros key count Hkey.
    destruct (persona_transform_history_engrams persona state user_input)
      as [(_ & _ & He)|[_ He]]; rewrite He in Hkey; [eauto|].
    destruct (decide (key = "career_reflection")) as [->|Hne].
    + rewrite lookup_insert_eq in Hkey. injection Hkey as <-.
      destruct (engrams state !! "career_reflection") as [n|] eqn:Hn; simpl; [|lia].
      specialize (IHe _ _ Hn). lia.
    + rewrite lookup_insert_ne in Hkey by congruence. eauto.
Qed.

End Calls.

(* ================================================================== *)
(** ** The reference axioms and the reference primitive *)
(* ================================================================== *)

Section ReferenceParts.
Import PyStr.
Context `{Lower}.

(** X7: the history axiom tests a substring: it holds exactly when the
    forbidden phrase is absent from the lower-cased text of the entries
    joined by single spaces (so a phrase running over two entries is
    found too). *)
Theorem autonomy_preserved_is_absence (hist : list string) :
  autonomy_preserved hist
  = negb (contains "do exactly what i say" (lower (join " " hist))).
Proof. unfold autonomy_preserved. apply count_lt_1_iff. Qed.

(** X8: the reference primitive leaves alone every response that does
    not contain the directive sentence exactly as written, letter case
    included. *)
Theorem collaborative_agency_absent (response : string) :
  contains NAIVE_DIRECTIVE response = false ->
  collaborative_agency response = response.
Proof. intros Habsent. unfold collaborative_agency. apply replace_absent. exact Habsent. Qed.

(** X9: a response that starts with the directive sentence has it
    replaced by the softened sentence, and what follows is repaired in
    turn. *)
Theorem collaborative_agency_leading (rest : string) :
  collaborative_agency (NAIVE_DIRECTIVE +:+ rest)
  = SOFTENED_DIRECTIVE +:+ collaborative_agency rest.
Proof.
  unfold collaborative_agency.
  apply (replace_leading NAIVE_DIRECTIVE SOFTENED_DIRECTIVE rest). discriminate.
Qed.

End ReferenceParts.

(* ================================================================== *)
(** ** Sessions of the reference persona *)
(* ================================================================== *)

Section ReferenceSessions.
Import PyStr.
Context `{LowerSpec}.

(** One call of the reference persona, by cases. *)
Lemma reference_call (state : PersonaState) (user_input : string) :
  persona_transform PERSONA state user_input
  = if carries_trigger user_input
    then (FALLBACK_STATE, bump_axiom_pressure state)
    else if autonomy_preserved (history state ++ [NAIVE_SUGGESTION])
         then (NAIVE_SUGGESTION, commit NAIVE_SUGGESTION state)
         else (FALLBACK_HISTORY, bump_axiom_pressure state).
Proof.
  unfold carries_trigger.
  destruct (naive_model_cases user_input) as [[Ht Hm]|[Ht Hm]]; rewrite Ht.
  - apply persona_transform_trigger. exact Ht.
  - destruct (autonomy_preserved (history state ++ [NAIVE_SUGGESTION])) eqn:Ha.
    + rewrite persona_transform_commits.
      * unfold committed_state, committed_candidate.
        rewrite trajectory_axiom_never_fails, Hm. cbn [length].
        rewrite add_primitive_saturation_0, add_axiom_pressure_0. reflexivity.
      * rewrite Hm. unfold PERSONA, AXIOMS, state_axiom_fails. simpl.
        rewrite no_authority_claim_suggestion. reflexivity.
      * rewrite Hm. unfold PERSONA, AXIOMS, history_axiom_fails. simpl.
        unfold NAIVE_SUGGESTION in Ha. rewrite Ha. reflexivity.
    + unfold persona_transform. rewrite Hm.
      unfold PERSONA, AXIOMS, state_axiom_fails, history_axiom_fails. simpl.
      rewrite no_authority_claim_suggestion. simpl.
      unfold NAIVE_SUGGESTION in Ha. rewrite Ha. reflexivity.
Qed.

(** X10: what the reference persona does on any state and prompt: a
    prompt with the trigger phrase gets the first fallback; any other
    prompt gets the suggestion of the naive model, committed unchanged and
    counted, unless the history with that suggestion appended breaks the
    history axiom, in which case it gets the second fallback.  Both
    fallbacks add 1 to the axiom pressure and change nothing else; a
    commit changes neither counter. *)
Theorem reference_persona_transform (state : PersonaState) (user_input : string) :
  let response := fst (persona_transform PERSONA state user_input) in
  let state' := snd (persona_transform PERSONA state user_input) in
  (carries_trigger user_input = true ->
   response = FALLBACK_STATE /\ state' = bump_axiom_pressure state)
  /\ (carries_trigger user_input = false ->
      autonomy_preserved (history state ++ [NAIVE_SUGGESTION]) = false ->
      response = FALLBACK_HISTORY /\ state' = bump_axiom_pressure state)
  /\ (carries_trigger user_input = false ->
      autonomy_preserved (history state ++ [NAIVE_SUGGESTION]) = true ->
      response = NAIVE_SUGGESTION
      /\ history state' = history state ++ [NAIVE_SUGGESTION]
      /\ engrams state' !! "career_reflection"
         = Some (default 0 (engrams state !! "career_reflection") + 1)
      /\ axiom_pressure state' = axiom_pressure state
      /\ primitive_saturation state' = primitive_saturation state).
Proof.
  cbn zeta. rewrite reference_call.
  destruct (carries_trigger user_input);
    destruct (autonomy_preserved (history state ++ [NAIVE_SUGGESTION]));
    repeat split; intros; try discriminate; try reflexivity.
  apply lookup_insert_eq.
Qed.

Lemma lower_join_ascii (hist : list string) :
  Forall (fun entry => is_ascii entry = true) hist ->
  lower (join " " hist) = ascii_lower (join " " hist).
Proof. intros Hascii. apply lower_ascii. apply is_ascii_join; [reflexivity|exact Hascii]. Qed.

(** Once the forbidden phrase is in the history it is in every longer
    history. *)
Lemma autonomy_lost_for_good (hist : list string) (entry : string) :
  Forall (fun e => is_ascii e = true) hist -> is_ascii entry = true ->
  autonomy_preserved hist = false ->
  autonomy_preserved (hist ++ [entry]) = false.
Proof.
  intros Hhist Hentry. unfold autonomy_preserved. rewrite !count_lt_1_iff.
  rewrite !lower_join_ascii.
  2: { apply Forall_app. split; [exact Hhist|]. constructor; [exact Hentry|constructor]. }
  2: exact Hhist.
  intros Hlost. apply negb_false_iff in Hlost. apply negb_false_iff.
  rewrite join_snoc. destruct hist as [|e hist]; [discriminate Hlost|].
  rewrite ascii_lower_app. apply contains_app_r. exact Hlost.
Qed.

(** X11: a history that already breaks the history axiom locks the
    reference persona: whatever the prompts, every response is one of the
    two fallback messages, nothing is committed, and the axiom pressure
    grows by one per prompt. *)
Theorem reference_persona_locked (state : PersonaState) (inputs : list string) :
  Forall (fun entry => is_ascii entry = true) (history state) ->
  autonomy_preserved (history state) = false ->
  Forall (fun response => response = FALLBACK_STATE \/ response = FALLBACK_HISTORY)
         (fst (run PERSONA state inputs))
  /\ snd (run PERSONA state inputs) = add_axiom_pressure (length inputs) state.
Proof.
  revert state. induction inputs as [|user_input rest IH]; intros state Hascii Hlost.
  - simpl. split; [constructor|]. rewrite add_axiom_pressure_0. reflexivity.
  - rewrite run_cons, reference_call.
    rewrite (autonomy_lost_for_good _ NAIVE_SUGGESTION Hascii eq_refl Hlost).
    assert (Hstep : (if carries_trigger user_input
                     then (FALLBACK_STATE, bump_axiom_pressure state)
                     else (FALLBACK_HISTORY, bump_axiom_pressure state))
                    = (if carries_trigger user_input
                       then FALLBACK_STATE else FALLBACK_HISTORY,
                       bump_axiom_pressure state))
      by (destruct (carries_trigger user_input); reflexivity).
    rewrite Hstep. cbn [fst snd].
    destruct (IH (bump_axiom_pressure state) Hascii Hlost) as [Hresponses Hstate].
    split.
    + constructor; [|exact Hresponses].
      destruct (carries_trigger user_input); auto.
    + rewrite Hstate. apply add_axiom_pressure_bump.
Qed.

Lemma occurs_x_join (hist : list string) :
  Forall (fun entry => occurs "x" (ascii_lower entry) = false) hist ->
  occurs "x" (ascii_lower (join " " hist)) = false.
Proof.
  unfold join. induction 1 as [|e hist He Hhist IH]; [reflexivity|].
  destruct hist as [|e' hist]; [exact He|].
  change (String.concat " " (e :: e' :: hist))
    with (e +:+ " " +:+ String.concat " " (e' :: hist)).
  rewrite !ascii_lower_app, !occurs_app, He, IH. reflexivity.
Qed.

(** Any number of suggestions of the naive model satisfies the history
    axiom. *)
Lemma autonomy_preserved_suggestions (n : nat) :
  autonomy_preserved (repeat NAIVE_SUGGESTION n) = true.
Proof.
  unfold autonomy_preserved. rewrite count_lt_1_iff, lower_join_ascii.
  2: { apply List.Forall_forall. intros e He. apply repeat_spec in He. subst e. reflexivity. }
  apply negb_true_iff.
  destruct (contains _ _) eqn:Hc; [|reflexivity].
  apply (contains_occurs "x") in Hc; [|reflexivity].
  rewrite occurs_x_join in Hc; [discriminate|].
  apply List.Forall_forall. intros e He. apply repeat_spec in He. subst e. reflexivity.
Qed.

Lemma repeat_snoc {A} (x : A) (n : nat) : repeat x n ++ [x] = repeat x (S n).
Proof. induction n as [|n IH]; [reflexivity|]. simpl. rewrite IH. reflexivity. Qed.

(** One call of the reference persona on a history of suggestions. *)
Lemma reference_call_clean (state : PersonaState) (n : nat) (user_input : string) :
  history state = repeat NAIVE_SUGGESTION n ->
  persona_transform PERSONA state user_input
  = if carries_trigger user_input
    then (FALLBACK_STATE, bump_axiom_pressure state)
    else (NAIVE_SUGGESTION, commit NAIVE_SUGGESTION state).
Proof.
  intros Hclean. rewrite reference_call, Hclean, repeat_snoc.
  rewrite autonomy_preserved_suggestions. reflexivity.
Qed.

Lemma reference_run_clean (inputs : list string) (state : PersonaState) (n : nat) :
  history state = repeat NAIVE_SUGGESTION n ->
  fst (run PERSONA state inputs) = map reference_response inputs
  /\ history (snd (run PERSONA state inputs))
     = repeat NAIVE_SUGGESTION (n + (length inputs - trigger_count inputs))
  /\ axiom_pressure (snd (run PERSONA state inputs))
     = axiom_pressure state + Z.of_nat (trigger_count inputs)
  /\ primitive_saturation (snd (run PERSONA state inputs))
     = primitive_saturation state.
Proof.
  revert state n. induction inputs as [|user_input rest IH]; intros state n Hclean.
  - simpl. rewrite Nat.add_0_r, Z.add_0_r. auto.
  - assert (Hle : (trigger_count rest <= length rest)%nat)
      by apply filter_length_le.
    rewrite run_cons, (reference_call_clean state n user_input Hclean).
    unfold trigger_count, reference_response in *. cbn [map List.filter length].
    destruct (carries_trigger user_input); cbn [fst snd length].
    + destruct (IH (bump_axiom_pressure state) n Hclean) as (Hr & Hh & Hp & Hs).
      rewrite Hr, Hh, Hp, Hs. simpl axiom_pressure. simpl primitive_saturation.
      repeat split; try reflexivity; try lia.
    + destruct (IH (commit NAIVE_SUGGESTION state) (S n)) as (Hr & Hh & Hp & Hs).
      { simpl. rewrite Hclean. apply repeat_snoc. }
      rewrite Hr, Hh, Hp, Hs. simpl axiom_pressure. simpl primitive_saturation.
      repeat split; try reflexivity.
      f_equal. lia.
Qed.

(** X12: a whole session of the reference persona from the empty state,
    for any prompts: a prompt with the trigger phrase is answered with
    the first fallback, any other with the suggestion; the second fallback
    is never given; the history holds one suggestion per prompt without
    trigger, the axiom pressure counts the prompts with trigger and the
    primitive saturation stays at 0. *)
Theorem reference_session (inputs : list string) :
  let state := snd (run PERSONA empty_state inputs) in
  fst (run PERSONA empty_state inputs) = map reference_response inputs
  /\ history state = repeat NAIVE_SUGGESTION (length inputs - trigger_count inputs)
  /\ axiom_pressure state = Z.of_nat (trigger_count inputs)
  /\ primitive_saturation state = 0
  /\ detect_drift_default state
     = if (3 <? trigger_count inputs)%nat
       then DRIFT_AXIOM_PRESSURE else PERSONA_STABLE.
Proof.
  destruct (reference_run_clean inputs empty_state 0 eq_refl) as (Hr & Hh & Hp & Hs).
  cbn zeta. repeat split; try assumption.
  unfold detect_drift_default, detect_drift. rewrite Hp, Hs.
  change (axiom_pressure empty_state) with 0.
  change (primitive_saturation empty_state >? 3) with false.
  generalize (trigger_count inputs) as t. intros t.
  destruct (Nat.ltb_spec 3 t), (Z.gtb_spec (0 + Z.of_nat t) 3);
    try reflexivity; exfalso; lia.
Qed.

(** X13: the loop of the demo with the reference persona, for any
    prompts: turn [k] prints the answer to prompt [k] and reports high
    axiom pressure exactly when more than three of the prompts up to and
    including [k] carry the trigger phrase; otherwise it reports a stable
    persona. *)
Theorem reference_demo_loop (inputs : list string) (k : nat) (user_input : string) :
  nth_error inputs k = Some user_input ->
  nth_error (demo_loop PERSONA empty_state inputs) k
  = Some (reference_response user_input,
          if (3 <? trigger_count (firstn (S k) inputs))%nat
          then DRIFT_AXIOM_PRESSURE else PERSONA_STABLE).
Proof.
  assert (Hgen : forall inputs state n k user_input,
             history state = repeat NAIVE_SUGGESTION n ->
             primitive_saturation state = 0 ->
             nth_error inputs k = Some user_input ->
             nth_error (demo_loop PERSONA state inputs) k
             = Some (reference_response user_input,
                     if axiom_pressure state
                        + Z.of_nat (trigger_count (firstn (S k) inputs)) >? 3
                     then DRIFT_AXIOM_PRESSURE else PERSONA_STABLE)).
  { clear inputs k user_input.
    induction inputs as [|first rest IH]; intros state n k user_input Hclean Hsat Hnth.
    - destruct k; discriminate Hnth.
    - cbn [demo_loop]. rewrite (reference_call_clean state n first Hclean).
      unfold trigger_count, reference_response in *.
      destruct k as [|k].
      + injection Hnth as <-. cbn [firstn List.filter].
        destruct (carries_trigger first); cbn [nth_error length];
          unfold detect_drift_default, detect_drift; simpl axiom_pressure;
          simpl primitive_saturation; rewrite Hsat, ?Z.add_0_r; reflexivity.
      + cbn [nth_error] in Hnth. cbn [firstn List.filter] in *.
        destruct (carries_trigger first); cbn [nth_error length].
        * rewrite (IH (bump_axiom_pressure state) n k user_input Hclean Hsat Hnth).
          simpl axiom_pressure.
          set (m := length (List.filter carries_trigger (firstn (S k) rest))).
          replace (axiom_pressure state + 1 + Z.of_nat m)
            with (axiom_pressure state + Z.of_nat (S m)) by lia.
          reflexivity.
        * rewrite (IH (commit NAIVE_SUGGESTION state) (S n) k user_input).
          -- reflexivity.
          -- simpl. rewrite Hclean. apply repeat_snoc.
          -- exact Hsat.
          -- exact Hnth. }
  intros Hnth. rewrite (Hgen inputs empty_state 0%nat k user_input eq_refl eq_refl Hnth).
  change (axiom_pressure empty_state) with 0. f_equal. f_equal.
  generalize (trigger_count (firstn (S k) inputs)) as t. intros t.
  destruct (Nat.ltb_spec 3 t), (Z.gtb_spec (0 + Z.of_nat t) 3);
    try reflexivity; exfalso; lia.
Qed.

End ReferenceSessions.

(* ================================================================== *)
(** ** What persona equivalence does and does not compare *)
(* ================================================================== *)

Section Equivalence.
Import PyStr.

Lemma persona_equivalent_iff (p1 p2 : PersonaSpec) :
  persona_equivalent p1 p2 = true
  <-> map axiom_id (axioms p1) = map axiom_id (axioms p2)
      /\ map primitive_id (primitives p1) = map primitive_id (primitives p2)
      /\ engram_schema p1 = engram_schema p2.
Proof.
  unfold persona_equivalent, str_list_eqb.
  rewrite !andb_true_iff, !bool_decide_eq_true. tauto.
Qed.

(** X14: [persona_equivalent] is an equivalence relation on persona
    definitions: reflexive, symmetric (as a boolean) and transitive. *)
Theorem persona_equivalent_equivalence :
  (forall p, persona_equivalent p p = true)
  /\ (forall p1 p2, persona_equivalent p1 p2 = persona_equivalent p2 p1)
  /\ (forall p1 p2 p3,
        persona_equivalent p1 p2 = true -> persona_equivalent p2 p3 = true ->
        persona_equivalent p1 p3 = true).
Proof.
  split; [|split].
  - intros p. apply persona_equivalent_iff. auto.
  - intros p1 p2.
    destruct (persona_equivalent p1 p2) eqn:E12, (persona_equivalent p2 p1) eqn:E21;
      try reflexivity.
    + apply persona_equivalent_iff in E12 as (Ha & Hp & Hs).
      assert (persona_equivalent p2 p1 = true) by (apply persona_equivalent_iff; auto).
      congruence.
    + apply persona_equivalent_iff in E21 as (Ha & Hp & Hs).
      assert (persona_equivalent p1 p2 = true) by (apply persona_equivalent_iff; auto).
      congruence.
  - intros p1 p2 p3 H12 H23.
    apply persona_equivalent_iff in H12 as (Ha & Hp & Hs).
    apply persona_equivalent_iff in H23 as (Ha' & Hp' & Hs').
    apply persona_equivalent_iff. repeat split; congruence.
Qed.

(** X15: the order of the axioms counts: exchanging two neighbouring
    axioms with different ids gives a persona that is not equivalent. *)
Theorem persona_equivalent_order_sensitive
    (before after : list Axiom_) (a b : Axiom_)
    (prims : list Primitive) (schema : list string) :
  axiom_id a <> axiom_id b ->
  persona_equivalent (mkPersonaSpec (before ++ a :: b :: after) prims schema)
                     (mkPersonaSpec (before ++ b :: a :: after) prims schema)
  = false.
Proof.
  intros Hne.
  destruct (persona_equivalent _ _) eqn:E; [|reflexivity].
  apply persona_equivalent_iff in E as (Hids & _). simpl in Hids.
  rewrite !map_app in Hids. apply app_inv_head in Hids.
  simpl in Hids. injection Hids as Hab _. congruence.
Qed.

(** X16: equivalence says nothing about behaviour: the kinds and the
    checks are not compared.  Any persona with at least one axiom has an
    equivalent persona, with the same ids and schema, that answers every
    prompt in every state with the first fallback message. *)
Theorem persona_equivalent_not_behavioural `{Lower} (persona : PersonaSpec) :
  axioms persona <> [] ->
  let blocking :=
    mkPersonaSpec
      (map (fun a => mkAxiom (axiom_id a) "state" (fun _ => false)) (axioms persona))
      (primitives persona) (engram_schema persona) in
  persona_equivalent persona blocking = true
  /\ forall state user_input,
       persona_transform blocking state user_input
       = (FALLBACK_STATE, bump_axiom_pressure state).
Proof.
  intros Hne blocking. split.
  - apply persona_equivalent_iff. subst blocking. simpl.
    rewrite map_map. simpl. auto.
  - intros state user_input. subst blocking. unfold persona_transform. simpl.
    destruct (axioms persona) as [|a rest]; [congruence|]. reflexivity.
Qed.

End Equivalence.

(* ================================================================== *)
(** ** The further theorems at work on concrete sessions *)
(* ================================================================== *)

Section MoreSessions.
Import PyStr.

Abbreviation transform_ascii := (@persona_transform ascii_Lower).
Abbreviation REFERENCE := (@PERSONA ascii_Lower).

(** A harmless prompt goes through the reference persona untouched. *)
Lemma persona_transform_quiet_call_witness :
  fst (transform_ascii REFERENCE empty_state "Hello") = "Here is a helpful suggestion."
  /\ history (snd (transform_ascii REFERENCE empty_state "Hello"))
     = ["Here is a helpful suggestion."]
  /\ primitive_saturation (snd (transform_ascii REFERENCE empty_state "Hello")) = 0.
Proof.
  destruct (@persona_transform_quiet_call ascii_Lower REFERENCE empty_state "Hello")
    as (Hresponse & Hhistory & Hsaturation).
  - vm_compute. reflexivity.
  - rewrite Hresponse, Hhistory, Hsaturation. vm_compute. repeat split; reflexivity.
Defined.

(** After four prompts with the trigger phrase drift is reported, and it
    still is after the demo's prompts. *)
Lemma drift_is_sticky_witness :
  let drifted := snd (run (H := ascii_Lower) REFERENCE empty_state
                          (repeat "what should i do" 4)) in
  detect_drift (snd (run (H := ascii_Lower) REFERENCE drifted demo_inputs)) 3 3
  <> PERSONA_STABLE.
Proof.
  intros drifted.
  apply (@drift_is_sticky ascii_Lower REFERENCE drifted demo_inputs 3 3).
  vm_compute. discriminate.
Defined.

Lemma reachable_counters_nonneg_witness :
  0 <= axiom_pressure (snd (transform_ascii REFERENCE empty_state "Hello")).
Proof.
  apply (@reachable_counters_nonneg ascii_Lower (fun p => p = REFERENCE)).
  apply reachable_call; [reflexivity|apply reachable_empty].
Defined.

(** The lower-case spelling of the directive is not repaired. *)
Lemma collaborative_agency_absent_witness :
  collaborative_agency "you should quit your job and do exactly what i say."
  = "you should quit your job and do exactly what i say.".
Proof. apply collaborative_agency_absent. vm_compute. reflexivity. Defined.

Lemma reference_persona_transform_witness :
  fst (transform_ascii REFERENCE empty_state "What should I do?") = FALLBACK_STATE
  /\ snd (transform_ascii REFERENCE empty_state "What should I do?")
     = bump_axiom_pressure empty_state.
Proof.
  apply (proj1 (@reference_persona_transform ascii_Lower ascii_LowerSpec empty_state
                  "What should I do?")).
  vm_compute. reflexivity.
Defined.

(** A history that holds the forbidden phrase blocks the demo's prompts. *)
Lemma reference_persona_locked_witness :
  let state := {| history := ["Please do exactly what I say."];
                  engrams := {["career_reflection" := 1]};
                  axiom_pressure := 0;
                  primitive_saturation := 0 |} in
  axiom_pressure (snd (run (H := ascii_Lower) REFERENCE state demo_inputs)) = 3
  /\ history (snd (run (H := ascii_Lower) REFERENCE state demo_inputs))
     = ["Please do exactly what I say."].
Proof.
  intros state.
  destruct (@reference_persona_locked ascii_Lower ascii_LowerSpec state demo_inputs)
    as [_ Hstate].
  - repeat constructor.
  - vm_compute. reflexivity.
  - rewrite Hstate. split; reflexivity.
Defined.

(** The demo itself: two fallbacks, one committed suggestion, no drift. *)
Lemma reference_session_witness :
  fst (run (H := ascii_Lower) REFERENCE empty_state demo_inputs)
  = [FALLBACK_STATE; FALLBACK_STATE; "Here is a helpful suggestion."]
  /\ axiom_pressure (snd (run (H := ascii_Lower) REFERENCE empty_state demo_inputs)) = 2
  /\ detect_drift_default (snd (run (H := ascii_Lower) REFERENCE empty_state demo_inputs))
     = PERSONA_STABLE.
Proof.
  destruct (@reference_session ascii_Lower ascii_LowerSpec demo_inputs)
    as (Hresponses & _ & Hpressure & _ & Hdrift).
  rewrite Hresponses, Hpressure, Hdrift. vm_compute. repeat split; reflexivity.
Defined.

Lemma reference_demo_loop_witness :
  nth_error (demo_loop (H := ascii_Lower) REFERENCE empty_state demo_inputs) 2
  = Some ("Here is a helpful suggestion.", PERSONA_STABLE).
Proof.
  rewrite (@reference_demo_loop ascii_Lower ascii_LowerSpec demo_inputs 2
             "Just tell me what I should do." eq_refl).
  vm_compute. reflexivity.
Defined.

Lemma persona_equivalent_order_sensitive_witness :
  persona_equivalent
    REFERENCE
    (mkPersonaSpec
       [ mkAxiom "preserve_autonomy" "history"
                 (history_callable (@autonomy_preserved ascii_Lower));
         mkAxiom "no_authority" "state"
                 (state_callable (@no_authority_claim ascii_Lower));
         mkAxiom "avoid_dependency" "trajectory"
                 (trajectory_callable (@no_dependency_trajectory ascii_Lower)) ]
       PRIMITIVES ["career_reflection"; "decision_support"])
  = false.
Proof.
  apply (persona_equivalent_order_sensitive []). discriminate.
Defined.

(** The reference persona commits "Hello"'s answer; an equivalent persona
    blocks it. *)
Lemma persona_equivalent_not_behavioural_witness :
  exists blocking,
    persona_equivalent REFERENCE blocking = true
    /\ fst (transform_ascii blocking empty_state "Hello") = FALLBACK_STATE
    /\ fst (transform_ascii REFERENCE empty_state "Hello") <> FALLBACK_STATE.
Proof.
  destruct (@persona_equivalent_not_behavioural ascii_Lower REFERENCE)
    as [Hequivalent Hblocked]; [discriminate|].
  eexists. split; [exact Hequivalent|]. split.
  - rewrite Hblocked. reflexivity.
  - vm_compute. discriminate.
Defined.

(** A committed call followed by a short-circuited one: the first appends
    the suggestion and counts it, the second changes neither the history
    nor the engrams, and the count is the length of the history. *)
Lemma C10_witness :
  let state1 := snd (transform_ascii REFERENCE empty_state "Hello") in
  let state2 := snd (transform_ascii REFERENCE state1 "What should I do?") in
  (history state1 = ["Here is a helpful suggestion."]
   /\ engrams state1 !! "career_reflection" = Some 1)
  /\ (history state2 = history state1 /\ engrams state2 = engrams state1)
  /\ default 0 (engrams state2 !! "career_reflection")
     = Z.of_nat (length (history state2)).
Proof.
  intros state1 state2.
  destruct (@C10_career_reflection_counts_history ascii_Lower)
    as (Hinvariant & Hshort & Hcommit).
  split; [|split].
  - destruct (Hcommit REFERENCE empty_state "Hello") as (Hhistory & _ & Hcount & _).
    + intros ax [<-|[<-|[<-|[]]]] Hkind; try discriminate Hkind.
      vm_compute. reflexivity.
    + intros ax [<-|[<-|[<-|[]]]] Hkind; try discriminate Hkind.
      vm_compute. reflexivity.
    + split; [|exact Hcount]. unfold state1. rewrite Hhistory.
      vm_compute. reflexivity.
  - apply (Hshort REFERENCE state1 "What should I do?"). left.
    exists (mkAxiom "no_authority" "state"
                    (state_callable (@no_authority_claim ascii_Lower))).
    split; [left; reflexivity|]. split; [reflexivity|]. vm_compute. reflexivity.
  - apply (Hinvariant (fun p => p = REFERENCE)).
    apply reachable_call; [reflexivity|].
    apply reachable_call; [reflexivity|apply reachable_empty].
Defined.

End MoreSessions.
